(** * Ghibli bot: the user ledger and referral store of [utils.py]

    A shallow embedding of the database layer of the bot ([utils.py],
    with the constants of [config.py]) and the properties of its
    persistence protocol, quota manager, referral engine and leaderboard.

    Modelling conventions.
    - The JSON document and everything stored in it are typed records;
      Python dictionaries keyed by identities or referral codes are finite
      maps.  A user identity is the integer [user_id]; [str(user_id)] is
      injective, so the string keys of the document are represented by the
      integer itself and [int(...)]/[str(...)] are the identity.
    - The file system and the clock form an explicit [World] threaded
      through every operation.  The clock ticks in whole seconds and does
      not advance inside one call; timestamps are seconds, calendar dates
      are day numbers.
    - File operations succeed unless a fault is injected; faults are
      studied for [save_database], which writes the document. *)

From Stdlib Require Import ZArith DecimalString Ascii.
From stdpp Require Import gmap strings list sorting.

Open Scope Z_scope.

(** ** hashlib.md5 and base64.urlsafe_b64encode *)

Module MD5.

Definition mask32 (x : Z) : Z := Z.land x 0xffffffff.

Definition rotl32 (x : Z) (c : Z) : Z :=
  mask32 (Z.lor (Z.shiftl x c) (Z.shiftr (mask32 x) (32 - c))).

Definition not32 (x : Z) : Z := Z.lxor (mask32 x) 0xffffffff.

Definition shifts : list Z :=
  [7; 12; 17; 22; 7; 12; 17; 22; 7; 12; 17; 22; 7; 12; 17; 22;
   5; 9; 14; 20; 5; 9; 14; 20; 5; 9; 14; 20; 5; 9; 14; 20;
   4; 11; 16; 23; 4; 11; 16; 23; 4; 11; 16; 23; 4; 11; 16; 23;
   6; 10; 15; 21; 6; 10; 15; 21; 6; 10; 15; 21; 6; 10; 15; 21].

Definition sines : list Z :=
  [0xd76aa478; 0xe8c7b756; 0x242070db; 0xc1bdceee;
   0xf57c0faf; 0x4787c62a; 0xa8304613; 0xfd469501;
   0x698098d8; 0x8b44f7af; 0xffff5bb1; 0x895cd7be;
   0x6b901122; 0xfd987193; 0xa679438e; 0x49b40821;
   0xf61e2562; 0xc040b340; 0x265e5a51; 0xe9b6c7aa;
   0xd62f105d; 0x02441453; 0xd8a1e681; 0xe7d3fbc8;
   0x21e1cde6; 0xc33707d6; 0xf4d50d87; 0x455a14ed;
   0xa9e3e905; 0xfcefa3f8; 0x676f02d9; 0x8d2a4c8a;
   0xfffa3942; 0x8771f681; 0x6d9d6122; 0xfde5380c;
   0xa4beea44; 0x4bdecfa9; 0xf6bb4b60; 0xbebfbc70;
   0x289b7ec6; 0xeaa127fa; 0xd4ef3085; 0x04881d05;
   0xd9d4d039; 0xe6db99e5; 0x1fa27cf8; 0xc4ac5665;
   0xf4292244; 0x432aff97; 0xab9423a7; 0xfc93a039;
   0x655b59c3; 0x8f0ccc92; 0xffeff47d; 0x85845dd1;
   0x6fa87e4f; 0xfe2ce6e0; 0xa3014314; 0x4e0811a1;
   0xf7537e82; 0xbd3af235; 0x2ad7d2bb; 0xeb86d391].

(** Little-endian conversions between bytes and words. *)
Fixpoint le_bytes (n : nat) (x : Z) : list Z :=
  match n with
  | O => []
  | S n' => Z.land x 0xff :: le_bytes n' (Z.shiftr x 8)
  end.

Fixpoint le_word (bs : list Z) : Z :=
  match bs with
  | [] => 0
  | b :: bs' => b + 256 * le_word bs'
  end.

Fixpoint chunks {A} (fuel : nat) (k : nat) (l : list A) : list (list A) :=
  match fuel with
  | O => []
  | S fuel' =>
      match l with
      | [] => []
      | _ => take k l :: chunks fuel' k (drop k l)
      end
  end.

(** The message followed by 0x80, zeros up to 56 modulo 64, and the bit
    length on eight bytes. *)
Definition pad (msg : list Z) : list Z :=
  let len := Z.of_nat (length msg) in
  let zeros := Z.to_nat ((55 - len) mod 64) in
  msg ++ [0x80] ++ replicate zeros 0 ++ le_bytes 8 (8 * len).

Definition round_step (m : list Z) (st : Z * Z * Z * Z) (i : nat)
  : Z * Z * Z * Z :=
  let '(a, b, c, d) := st in
  let iz := Z.of_nat i in
  let '(f, g) :=
    if iz <? 16 then (Z.lor (Z.land b c) (Z.land (not32 b) d), iz)
    else if iz <? 32 then
      (Z.lor (Z.land d b) (Z.land (not32 d) c), (5 * iz + 1) mod 16)
    else if iz <? 48 then (Z.lxor (Z.lxor b c) d, (3 * iz + 5) mod 16)
    else (Z.lxor c (Z.lor b (not32 d)), (7 * iz) mod 16) in
  let f' := mask32 (f + a + nth i sines 0 + nth (Z.to_nat g) m 0) in
  (d, mask32 (b + rotl32 f' (nth i shifts 0)), b, c).

Definition process_block (st : Z * Z * Z * Z) (block : list Z)
  : Z * Z * Z * Z :=
  let m := map le_word (chunks 16 4 block) in
  let '(a0, b0, c0, d0) := st in
  let '(a, b, c, d) := fold_left (round_step m) (seq 0 64) st in
  (mask32 (a0 + a), mask32 (b0 + b), mask32 (c0 + c), mask32 (d0 + d)).

Definition digest (msg : list Z) : list Z :=
  let p := pad msg in
  let '(a, b, c, d) :=
    fold_left process_block (chunks (length p) 64 p)
      (0x67452301, 0xefcdab89, 0x98badcfe, 0x10325476) in
  le_bytes 4 a ++ le_bytes 4 b ++ le_bytes 4 c ++ le_bytes 4 d.

End MD5.

Module Base64.

Definition alphabet : string :=
  "ABCDEFGHIJKLMNOPQRSTUVWXYZabcdefghijklmnopqrstuvwxyz0123456789-_".

Definition digit (x : Z) : string :=
  match String.get (Z.to_nat x) alphabet with
  | Some c => String c EmptyString
  | None => EmptyString
  end.

(** Three bytes give four characters; a shorter tail is padded with [=]. *)
Fixpoint urlsafe_b64encode (bs : list Z) : string :=
  match bs with
  | [] => EmptyString
  | [b0] =>
      digit (Z.shiftr b0 2) +:+ digit (Z.land (Z.shiftl b0 4) 63) +:+ "=="
  | [b0; b1] =>
      digit (Z.shiftr b0 2)
      +:+ digit (Z.land (Z.lor (Z.shiftl b0 4) (Z.shiftr b1 4)) 63)
      +:+ digit (Z.land (Z.shiftl b1 2) 63) +:+ "="
  | b0 :: b1 :: b2 :: rest =>
      digit (Z.shiftr b0 2)
      +:+ digit (Z.land (Z.lor (Z.shiftl b0 4) (Z.shiftr b1 4)) 63)
      +:+ digit (Z.land (Z.lor (Z.shiftl b1 2) (Z.shiftr b2 6)) 63)
      +:+ digit (Z.land b2 63)
      +:+ urlsafe_b64encode rest
  end.

End Base64.

(** [str(n)] on integers and [data.encode()] on ASCII text. *)
Definition str (z : Z) : string := NilZero.string_of_int (Z.to_int z).

Fixpoint encode (s : string) : list Z :=
  match s with
  | EmptyString => []
  | String c s' => Z.of_N (N_of_ascii c) :: encode s'
  end.

(** ** config.py *)

Module CONFIG.

Definition bot_name : string := "GhibliBotTelegram".
Definition bot_username : string := "ghibli_style_bot".
Definition bot_version : string := "1.3.0".

(** [USER_ROLES]: role, its [user_ids] and its [permissions], in the order
    of the dictionary. *)
Definition users : list (string * (list Z * list string)) :=
  [("owner", ([123456789], ["all"]));
   ("admin", ([234567890; 345678901],
              ["manage_limits"; "broadcast"; "view_stats"]));
   ("moderator", ([456789012; 567890123], ["view_stats"; "add_limit"]))].

Definition daily_limit : Z := 2.
Definition vip_daily_limit : Z := 5.
(** [default_strength] is 0.6; strengths are kept in hundredths. *)
Definition default_strength : Z := 60.

Definition referrer_bonus : Z := 2.
Definition referee_bonus : Z := 1.
Definition min_uses_for_extra_bonus : Z := 5.
Definition extra_bonus : Z := 3.
Definition link_prefix : string := "https://t.me/".
Definition link_middle : string := "?start=ref_".

Definition auto_backup : bool := true.
(** [backup_interval], in hours. *)
Definition backup_interval : Z := 24.

End CONFIG.

(** ** The document *)

Record Referral := {
  referral_code : string;
  referred_by : option Z;
  referred_users : list Z;
  total_referrals : Z;
  bonus_claimed : bool;
  link_created_at : option Z
}.

Record Preferences := { strength : Z; notifications : bool }.

Record UserData := {
  user_id : Z;
  username : string;
  first_name : string;
  last_name : string;
  join_date : Z;
  status : string;
  role : string;
  remaining_limit : Z;
  total_generations : Z;
  last_reset_date : Z;
  last_generation_time : option Z;
  referral : Referral;
  preferences : Preferences
}.

(** An entry of [top_users] or [top_referrers]; [te_value] is the value
    stored under the list's sort key. *)
Record TopEntry := {
  te_user_id : Z;
  te_username : string;
  te_first_name : string;
  te_last_name : string;
  te_value : Z
}.

Record Stats := {
  stats_total_generations : Z;
  stats_total_users : Z;
  stats_total_referrals : Z;
  top_users : list TopEntry;
  top_referrers : list TopEntry
}.

(** A value of [active_links]. *)
Record Link := { lk_user_id : Z; lk_created_at : Z; uses : Z }.

Record Referrals := {
  active_links : gmap string Link;
  total_conversions : Z
}.

Record Meta := {
  version : string;
  last_backup : option Z;
  created_at : Z;
  updated_at : Z
}.

(** The dictionary [db] the functions work on. *)
Record Store := {
  users : gmap Z UserData;
  stats : Stats;
  referrals : Referrals;
  meta : Meta
}.

(** What [json.load] yields: ["referrals"] and ["meta"] may be missing
    from a document written by an older version. *)
Record RawDoc := {
  d_users : gmap Z UserData;
  d_stats : Stats;
  d_referrals : option Referrals;
  d_meta : option Meta
}.

(** A file holds the complete text of a document, a proper prefix of one
    (a write that was interrupted), or anything else that does not parse. *)
Inductive File :=
| Document (d : RawDoc)
| Torn (d : RawDoc)
| Junk (bytes : string).

(** [db_file], [db_file + ".temp"], the backup folder (by timestamp of the
    copy; a missing folder is created on demand, so it is the empty map),
    the quarantined files [db_file + ".corrupt." + timestamp], and the
    clock. *)
Record World := {
  db_file : option File;
  temp_file : option File;
  backups : gmap Z File;
  corrupt : gmap Z File;
  clock : Z
}.

(** *** Field assignments *)
Definition set_referral_code v (r : Referral) : Referral :=
  {| referral_code := v; referred_by := referred_by r; referred_users :=
     referred_users r; total_referrals := total_referrals r; bonus_claimed
     := bonus_claimed r; link_created_at := link_created_at r |}.

Definition set_referred_by v (r : Referral) : Referral :=
  {| referral_code := referral_code r; referred_by := v; referred_users :=
     referred_users r; total_referrals := total_referrals r; bonus_claimed
     := bonus_claimed r; link_created_at := link_created_at r |}.

Definition set_referred_users v (r : Referral) : Referral :=
  {| referral_code := referral_code r; referred_by := referred_by r;
     referred_users := v; total_referrals := total_referrals r;
     bonus_claimed := bonus_claimed r; link_created_at := link_created_at
     r |}.

Definition set_total_referrals v (r : Referral) : Referral :=
  {| referral_code := referral_code r; referred_by := referred_by r;
     referred_users := referred_users r; total_referrals := v;
     bonus_claimed := bonus_claimed r; link_created_at := link_created_at
     r |}.

Definition set_bonus_claimed v (r : Referral) : Referral :=
  {| referral_code := referral_code r; referred_by := referred_by r;
     referred_users := referred_users r; total_referrals :=
     total_referrals r; bonus_claimed := v; link_created_at :=
     link_created_at r |}.

Definition set_link_created_at v (r : Referral) : Referral :=
  {| referral_code := referral_code r; referred_by := referred_by r;
     referred_users := referred_users r; total_referrals :=
     total_referrals r; bonus_claimed := bonus_claimed r; link_created_at
     := v |}.

Definition set_user_id v (r : UserData) : UserData :=
  {| user_id := v; username := username r; first_name := first_name r;
     last_name := last_name r; join_date := join_date r; status := status
     r; role := role r; remaining_limit := remaining_limit r;
     total_generations := total_generations r; last_reset_date :=
     last_reset_date r; last_generation_time := last_generation_time r;
     referral := referral r; preferences := preferences r |}.

Definition set_username v (r : UserData) : UserData :=
  {| user_id := user_id r; username := v; first_name := first_name r;
     last_name := last_name r; join_date := join_date r; status := status
     r; role := role r; remaining_limit := remaining_limit r;
     total_generations := total_generations r; last_reset_date :=
     last_reset_date r; last_generation_time := last_generation_time r;
     referral := referral r; preferences := preferences r |}.

Definition set_first_name v (r : UserData) : UserData :=
  {| user_id := user_id r; username := username r; first_name := v;
     last_name := last_name r; join_date := join_date r; status := status
     r; role := role r; remaining_limit := remaining_limit r;
     total_generations := total_generations r; last_reset_date :=
     last_reset_date r; last_generation_time := last_generation_time r;
     referral := referral r; preferences := preferences r |}.

Definition set_last_name v (r : UserData) : UserData :=
  {| user_id := user_id r; username := username r; first_name :=
     first_name r; last_name := v; join_date := join_date r; status :=
     status r; role := role r; remaining_limit := remaining_limit r;
     total_generations := total_generations r; last_reset_date :=
     last_reset_date r; last_generation_time := last_generation_time r;
     referral := referral r; preferences := preferences r |}.

Definition set_remaining_limit v (r : UserData) : UserData :=
  {| user_id := user_id r; username := username r; first_name :=
     first_name r; last_name := last_name r; join_date := join_date r;
     status := status r; role := role r; remaining_limit := v;
     total_generations := total_generations r; last_reset_date :=
     last_reset_date r; last_generation_time := last_generation_time r;
     referral := referral r; preferences := preferences r |}.

Definition set_total_generations v (r : UserData) : UserData :=
  {| user_id := user_id r; username := username r; first_name :=
     first_name r; last_name := last_name r; join_date := join_date r;
     status := status r; role := role r; remaining_limit :=
     remaining_limit r; total_generations := v; last_reset_date :=
     last_reset_date r; last_generation_time := last_generation_time r;
     referral := referral r; preferences := preferences r |}.

Definition set_last_reset_date v (r : UserData) : UserData :=
  {| user_id := user_id r; username := username r; first_name :=
     first_name r; last_name := last_name r; join_date := join_date r;
     status := status r; role := role r; remaining_limit :=
     remaining_limit r; total_generations := total_generations r;
     last_reset_date := v; last_generation_time := last_generation_time r;
     referral := referral r; preferences := preferences r |}.

Definition set_last_generation_time v (r : UserData) : UserData :=
  {| user_id := user_id r; username := username r; first_name :=
     first_name r; last_name := last_name r; join_date := join_date r;
     status := status r; role := role r; remaining_limit :=
     remaining_limit r; total_generations := total_generations r;
     last_reset_date := last_reset_date r; last_generation_time := v;
     referral := referral r; preferences := preferences r |}.

Definition set_referral v (r : UserData) : UserData :=
  {| user_id := user_id r; username := username r; first_name :=
     first_name r; last_name := last_name r; join_date := join_date r;
     status := status r; role := role r; remaining_limit :=
     remaining_limit r; total_generations := total_generations r;
     last_reset_date := last_reset_date r; last_generation_time :=
     last_generation_time r; referral := v; preferences := preferences r
     |}.

Definition set_stats_total_generations v (r : Stats) : Stats :=
  {| stats_total_generations := v; stats_total_users := stats_total_users
     r; stats_total_referrals := stats_total_referrals r; top_users :=
     top_users r; top_referrers := top_referrers r |}.

Definition set_stats_total_users v (r : Stats) : Stats :=
  {| stats_total_generations := stats_total_generations r;
     stats_total_users := v; stats_total_referrals :=
     stats_total_referrals r; top_users := top_users r; top_referrers :=
     top_referrers r |}.

Definition set_top_users v (r : Stats) : Stats :=
  {| stats_total_generations := stats_total_generations r;
     stats_total_users := stats_total_users r; stats_total_referrals :=
     stats_total_referrals r; top_users := v; top_referrers :=
     top_referrers r |}.

Definition set_top_referrers v (r : Stats) : Stats :=
  {| stats_total_generations := stats_total_generations r;
     stats_total_users := stats_total_users r; stats_total_referrals :=
     stats_total_referrals r; top_users := top_users r; top_referrers := v
     |}.

Definition set_uses v (r : Link) : Link :=
  {| lk_user_id := lk_user_id r; lk_created_at := lk_created_at r; uses :=
     v |}.

Definition set_active_links v (r : Referrals) : Referrals :=
  {| active_links := v; total_conversions := total_conversions r |}.

Definition set_total_conversions v (r : Referrals) : Referrals :=
  {| active_links := active_links r; total_conversions := v |}.

Definition set_last_backup v (r : Meta) : Meta :=
  {| version := version r; last_backup := v; created_at := created_at r;
     updated_at := updated_at r |}.

Definition set_updated_at v (r : Meta) : Meta :=
  {| version := version r; last_backup := last_backup r; created_at :=
     created_at r; updated_at := v |}.

Definition set_users v (r : Store) : Store :=
  {| users := v; stats := stats r; referrals := referrals r; meta := meta
     r |}.

Definition set_stats v (r : Store) : Store :=
  {| users := users r; stats := v; referrals := referrals r; meta := meta
     r |}.

Definition set_referrals v (r : Store) : Store :=
  {| users := users r; stats := stats r; referrals := v; meta := meta r
     |}.

Definition set_meta v (r : Store) : Store :=
  {| users := users r; stats := stats r; referrals := referrals r; meta :=
     v |}.

Definition set_db_file v (r : World) : World :=
  {| db_file := v; temp_file := temp_file r; backups := backups r; corrupt
     := corrupt r; clock := clock r |}.

Definition set_temp_file v (r : World) : World :=
  {| db_file := db_file r; temp_file := v; backups := backups r; corrupt
     := corrupt r; clock := clock r |}.

Definition set_backups v (r : World) : World :=
  {| db_file := db_file r; temp_file := temp_file r; backups := v; corrupt
     := corrupt r; clock := clock r |}.

Definition set_corrupt v (r : World) : World :=
  {| db_file := db_file r; temp_file := temp_file r; backups := backups r;
     corrupt := v; clock := clock r |}.

Definition set_clock v (r : World) : World :=
  {| db_file := db_file r; temp_file := temp_file r; backups := backups r;
     corrupt := corrupt r; clock := v |}.

(** ** Time *)

(** [datetime.now().strftime("%Y-%m-%d")], as a day number. *)
Definition date_of (t : Z) : Z := t / 86400.

(** [str(time.time())] for a clock that reads a whole second. *)
Definition str_time (t : Z) : string := str t +:+ ".0".

(** ** Database management *)

Definition get_database_schema (now : Z) : Store :=
  {| users := ∅;
     stats := {| stats_total_generations := 0; stats_total_users := 0;
                 stats_total_referrals := 0; top_users := [];
                 top_referrers := [] |};
     referrals := {| active_links := ∅; total_conversions := 0 |};
     meta := {| version := CONFIG.bot_version; last_backup := None;
                created_at := now; updated_at := now |} |}.

(** The [user_id] of the schema is the empty string; every caller assigns
    it at once, and [0] stands for it here. *)
Definition get_user_schema (now : Z) : UserData :=
  {| user_id := 0; username := ""; first_name := ""; last_name := "";
     join_date := now; status := "active"; role := "user";
     remaining_limit := CONFIG.daily_limit; total_generations := 0;
     last_reset_date := date_of now; last_generation_time := None;
     referral := {| referral_code := ""; referred_by := None;
                    referred_users := []; total_referrals := 0;
                    bonus_claimed := false; link_created_at := None |};
     preferences := {| strength := CONFIG.default_strength;
                       notifications := true |} |}.

(** [json.dump(db, f)] and [json.load(f)]. *)
Definition dump (db : Store) : RawDoc :=
  {| d_users := users db; d_stats := stats db;
     d_referrals := Some (referrals db); d_meta := Some (meta db) |}.

Definition parse (f : File) : option RawDoc :=
  match f with
  | Document d => Some d
  | Torn _ | Junk _ => None
  end.

(** The step of [save_database] at which the file system raises. *)
Inductive fault := NoFault | TempWriteFails | ReplaceFails | RewriteFails.

Definition is_fault (fl at_step : fault) : bool :=
  match fl, at_step with
  | TempWriteFails, TempWriteFails => true
  | ReplaceFails, ReplaceFails => true
  | RewriteFails, RewriteFails => true
  | _, _ => false
  end.

Definition backup_database (w : World) : bool * World :=
  match db_file w with
  | None => (false, w)
  | Some src => (true, set_backups (<[clock w := src]> (backups w)) w)
  end.

(** [not last_backup_str or now - last_backup > timedelta(hours=...)] *)
Definition backup_due (last : option Z) (now : Z) : bool :=
  match last with
  | None => true
  | Some t => CONFIG.backup_interval * 3600 <? now - t
  end.

(** The handler of [save_database]: drop the temporary file if it is
    there, and report failure. *)
Definition save_failed (db : Store) (w : World) : bool * Store * World :=
  (false, db, set_temp_file None w).

(** [save_database] mutates [db] (its [meta]); the mutated dictionary is
    returned next to the result, for the callers that keep using it. *)
Definition save_database_at (fl : fault) (db : Store) (w : World)
  : bool * Store * World :=
  let db := set_meta (set_updated_at (clock w) (meta db)) db in
  if is_fault fl TempWriteFails then
    save_failed db (set_temp_file (Some (Torn (dump db))) w)
  else
  let w := set_temp_file (Some (Document (dump db))) w in
  if is_fault fl ReplaceFails then save_failed db w else
  (* [os.replace] over an existing file, [os.rename] otherwise *)
  let w :=
    match db_file w with
    | Some _ => set_temp_file None (set_db_file (temp_file w) w)
    | None => set_temp_file None (set_db_file (temp_file w) w)
    end in
  if CONFIG.auto_backup then
    if backup_due (last_backup (meta db)) (clock w) then
      let '(ok, w) := backup_database w in
      if ok then
        let db := set_meta (set_last_backup (Some (clock w)) (meta db)) db in
        if is_fault fl RewriteFails then
          save_failed db (set_db_file (Some (Torn (dump db))) w)
        else (true, db, set_db_file (Some (Document (dump db))) w)
      else (true, db, w)
    else (true, db, w)
  else (true, db, w).

Definition save_database : Store -> World -> bool * Store * World :=
  save_database_at NoFault.

(** The validation step of [load_database]: a missing ["meta"] or
    ["referrals"] is taken from the schema, then [updated_at] is stamped. *)
Definition validate (now : Z) (d : RawDoc) : Store :=
  let m := match d_meta d with
           | Some m => m
           | None => meta (get_database_schema now)
           end in
  let r := match d_referrals d with
           | Some r => r
           | None => referrals (get_database_schema now)
           end in
  {| users := d_users d; stats := d_stats d; referrals := r;
     meta := set_updated_at now m |}.

Definition load_database (w : World) : Store * World :=
  match db_file w with
  | Some f =>
      match parse f with
      | Some d => (validate (clock w) d, w)
      | None =>
          (* the corrupt file is renamed aside, then a new database *)
          let w := set_corrupt (<[clock w := f]> (corrupt w))
                     (set_db_file None w) in
          let '(_, db, w) := save_database (get_database_schema (clock w)) w in
          (db, w)
      end
  | None =>
      let '(_, db, w) := save_database (get_database_schema (clock w)) w in
      (db, w)
  end.

(** ** User management *)

Definition get_user_role (user_id : Z) (w : World) : string * World :=
  match find (fun rd => bool_decide (user_id ∈ rd.2.1)) CONFIG.users with
  | Some rd => (rd.1, w)
  | None =>
      let '(db, w) := load_database w in
      match users db !! user_id with
      | Some u => (role u, w)
      | None => ("user", w)
      end
  end.

Definition get_user_data (user_id : Z) (w : World) : UserData * World :=
  let '(db, w) := load_database w in
  match users db !! user_id with
  | None =>
      let user_data := set_user_id user_id (get_user_schema (clock w)) in
      let db := set_users (<[user_id := user_data]> (users db)) db in
      let db := set_stats (set_stats_total_users
                             (stats_total_users (stats db) + 1) (stats db)) db in
      let '(_, _, w) := save_database db w in
      (user_data, w)
  | Some user_data =>
      let today := date_of (clock w) in
      if bool_decide (last_reset_date user_data ≠ today) then
        let '(r, w) := get_user_role user_id w in
        let user_data :=
          if String.eqb r "vip"
          then set_remaining_limit CONFIG.vip_daily_limit user_data
          else set_remaining_limit CONFIG.daily_limit user_data in
        let user_data := set_last_reset_date today user_data in
        let db := set_users (<[user_id := user_data]> (users db)) db in
        let '(_, _, w) := save_database db w in
        (user_data, w)
      else (user_data, w)
  end.

(** One item of the [update_data] dictionary.  Every key is a key of the
    user record; a dictionary value is merged into the stored dictionary
    with [dict.update], and it carries all the keys of [referral]. *)
Inductive field_update :=
| Username (v : string)
| FirstName (v : string)
| LastName (v : string)
| RemainingLimit (v : Z)
| TotalGenerations (v : Z)
| LastGenerationTime (v : option Z)
| ReferralDict (v : Referral).

Definition apply_update (u : UserData) (f : field_update) : UserData :=
  match f with
  | Username v => set_username v u
  | FirstName v => set_first_name v u
  | LastName v => set_last_name v u
  | RemainingLimit v => set_remaining_limit v u
  | TotalGenerations v => set_total_generations v u
  | LastGenerationTime v => set_last_generation_time v u
  | ReferralDict v => set_referral v u
  end.

Definition update_user_data (user_id : Z) (update_data : list field_update)
    (w : World) : bool * World :=
  let '(db, w) := load_database w in
  match users db !! user_id with
  | Some u =>
      let u := fold_left apply_update update_data u in
      let db := set_users (<[user_id := u]> (users db)) db in
      let '(ok, _, w) := save_database db w in
      (ok, w)
  | None => (false, w)
  end.

Definition modify_user_limit (user_id : Z) (amount : Z) (w : World)
  : (bool * Z) * World :=
  let '(user_data, w) := get_user_data user_id w in
  let new_limit := Z.max 0 (remaining_limit user_data + amount) in
  let '(success, w) := update_user_data user_id [RemainingLimit new_limit] w in
  ((success, new_limit), w).

(** ** Top lists *)

Inductive list_name := top_users_list | top_referrers_list.
Inductive sort_key := by_total_generations | by_total_referrals.

Definition get_list (ln : list_name) (s : Stats) : list TopEntry :=
  match ln with
  | top_users_list => top_users s
  | top_referrers_list => top_referrers s
  end.

Definition set_list (ln : list_name) (l : list TopEntry) (s : Stats) : Stats :=
  match ln with
  | top_users_list => set_top_users l s
  | top_referrers_list => set_top_referrers l s
  end.

Definition key_value (k : sort_key) (u : UserData) : Z :=
  match k with
  | by_total_generations => total_generations u
  | by_total_referrals => total_referrals (referral u)
  end.

(** The search loop: the first entry of the user is rewritten where it
    stands, and the loop stops there. *)
Fixpoint overwrite_entry (uid : Z) (u : UserData) (k : sort_key)
    (l : list TopEntry) : bool * list TopEntry :=
  match l with
  | [] => (false, [])
  | e :: rest =>
      if bool_decide (te_user_id e = uid) then
        (true, {| te_user_id := te_user_id e; te_username := username u;
                  te_first_name := first_name u;
                  te_last_name := te_last_name e;
                  te_value := key_value k u |} :: rest)
      else
        let '(found, rest) := overwrite_entry uid u k rest in
        (found, e :: rest)
  end.

(** [sorted(l, key=..., reverse=True)]: descending and stable. *)
Fixpoint insert_desc (e : TopEntry) (l : list TopEntry) : list TopEntry :=
  match l with
  | [] => [e]
  | y :: ys =>
      if te_value e <? te_value y then y :: insert_desc e ys
      else e :: y :: ys
  end.

Definition sorted_reverse (l : list TopEntry) : list TopEntry :=
  foldr insert_desc [] l.

Definition update_entries (uid : Z) (u : UserData) (k : sort_key)
    (max_entries : nat) (l : list TopEntry) : list TopEntry :=
  let '(found, l) := overwrite_entry uid u k l in
  let l :=
    if found then l
    else l ++ [{| te_user_id := uid; te_username := username u;
                  te_first_name := first_name u;
                  te_last_name := last_name u;
                  te_value := key_value k u |}] in
  take max_entries (sorted_reverse l).

Definition update_top_list (db : Store) (ln : list_name) (uid : Z)
    (u : UserData) (k : sort_key) (max_entries : nat) : Store :=
  set_stats
    (set_list ln (update_entries uid u k max_entries (get_list ln (stats db)))
       (stats db)) db.

Definition update_user_stats (user_id : Z) (user_data : UserData) (w : World)
  : World :=
  let '(db, w) := load_database w in
  let db := set_stats (set_stats_total_generations
                         (stats_total_generations (stats db) + 1) (stats db))
              db in
  let db := update_top_list db top_users_list user_id user_data
              by_total_generations 10 in
  let '(_, _, w) := save_database db w in
  w.

(** ** Referral system *)

Definition generate_referral_code (user_id : Z) (now : Z) : string :=
  let salt := CONFIG.bot_name +:+ str_time now in
  let data := str user_id +:+ ":" +:+ salt in
  let hash_digest := MD5.digest (encode data) in
  let code := Base64.urlsafe_b64encode hash_digest in
  String.substring 0 8 code.

(** The link format names [bot_username] and [user_id] only. *)
Definition referral_link (user_id : Z) : string :=
  CONFIG.link_prefix +:+ CONFIG.bot_username +:+ CONFIG.link_middle
  +:+ str user_id.

Definition create_referral_link (user_id : Z) (w : World) : string * World :=
  let '(db, w) := load_database w in
  let '(user_data, w) := get_user_data user_id w in
  if String.eqb (referral_code (referral user_data)) "" then
    let ref_code := generate_referral_code user_id (clock w) in
    let user_data :=
      set_referral (set_referral_code ref_code (referral user_data))
        user_data in
    let user_data :=
      set_referral (set_link_created_at (Some (clock w)) (referral user_data))
        user_data in
    let '(_, w) :=
      update_user_data user_id [ReferralDict (referral user_data)] w in
    let db :=
      set_referrals
        (set_active_links
           (<[ref_code := {| lk_user_id := user_id; lk_created_at := clock w;
                             uses := 0 |}]> (active_links (referrals db)))
           (referrals db)) db in
    let '(_, _, w) := save_database db w in
    (referral_link user_id, w)
  else (referral_link user_id, w).

Definition process_referral (referee_id : Z) (ref_code : string) (w : World)
  : (bool * option UserData) * World :=
  let '(db, w) := load_database w in
  match active_links (referrals db) !! ref_code with
  | None => ((false, None), w)
  | Some referral_info =>
      let referrer_id := lk_user_id referral_info in
      if bool_decide (referee_id = referrer_id) then ((false, None), w) else
      let '(referee_data, w) := get_user_data referee_id w in
      if bool_decide (is_Some (referred_by (referral referee_data)))
      then ((false, None), w) else
      (* bonus of the referee *)
      let '(_, w) := modify_user_limit referee_id CONFIG.referee_bonus w in
      let referee_data :=
        set_referral (set_referred_by (Some referrer_id)
                        (referral referee_data)) referee_data in
      let '(_, w) :=
        update_user_data referee_id [ReferralDict (referral referee_data)] w in
      (* bonus of the referrer *)
      let '(referrer_data, w) := get_user_data referrer_id w in
      let '(_, w) := modify_user_limit referrer_id CONFIG.referrer_bonus w in
      let referrer_data :=
        if bool_decide (referee_id ∉ referred_users (referral referrer_data))
        then set_referral
               (set_referred_users
                  (referred_users (referral referrer_data) ++ [referee_id])
                  (referral referrer_data)) referrer_data
        else referrer_data in
      let referrer_data :=
        set_referral
          (set_total_referrals (total_referrals (referral referrer_data) + 1)
             (referral referrer_data)) referrer_data in
      let '(_, w) :=
        update_user_data referrer_id [ReferralDict (referral referrer_data)] w
      in
      (* referral statistics *)
      let db :=
        set_referrals
          (set_active_links
             (alter (fun l => set_uses (uses l + 1) l) ref_code
                (active_links (referrals db))) (referrals db)) db in
      let db :=
        set_referrals
          (set_total_conversions (total_conversions (referrals db) + 1)
             (referrals db)) db in
      (* extra bonus at the threshold *)
      let '(referrer_data, w) :=
        if negb (bonus_claimed (referral referrer_data))
           && (CONFIG.min_uses_for_extra_bonus
               <=? Z.of_nat (length (referred_users (referral referrer_data))))
        then
          let '(_, w) := modify_user_limit referrer_id CONFIG.extra_bonus w in
          let referrer_data :=
            set_referral (set_bonus_claimed true (referral referrer_data))
              referrer_data in
          let '(_, w) :=
            update_user_data referrer_id
              [ReferralDict (referral referrer_data)] w in
          (referrer_data, w)
        else (referrer_data, w) in
      let db := update_top_list db top_referrers_list referrer_id
                  referrer_data by_total_referrals 10 in
      let '(_, _, w) := save_database db w in
      ((true, Some referrer_data), w)
  end.

(** ** Reading the document back *)

Definition document (w : World) : option RawDoc :=
  match db_file w with
  | Some f => parse f
  | None => None
  end.

Definition stored_users (w : World) : option (gmap Z UserData) :=
  d_users <$> document w.

Definition stored_user (uid : Z) (w : World) : option UserData :=
  match document w with
  | Some d => d_users d !! uid
  | None => None
  end.

Definition stored_referrals (w : World) : option Referrals :=
  match document w with
  | Some d => d_referrals d
  | None => None
  end.

Definition stored_link (code : string) (w : World) : option Link :=
  match stored_referrals w with
  | Some r => active_links r !! code
  | None => None
  end.

Definition stored_stats (w : World) : option Stats :=
  d_stats <$> document w.

(** ** Permissions *)


(** ** Start parameters and names *)

(** [s.split(sep)] for a separator of one character: the pieces between
    the occurrences of the separator, empty pieces included. *)
Fixpoint split (sep : ascii) (s : string) : list string :=
  match s with
  | EmptyString => [EmptyString]
  | String c s' =>
      if Ascii.eqb c sep then EmptyString :: split sep s'
      else match split sep s' with
           | piece :: pieces => String c piece :: pieces
           | [] => [String c EmptyString]
           end
  end.

Definition extract_referral_code (start_parameter : string) : option string :=
  if negb (String.eqb start_parameter "")
     && String.prefix "ref_" start_parameter
  then
    let parts := split "_" start_parameter in
    if (2 <=? length parts)%nat then parts !! 1%nat else None
  else None.

(** What the chat platform hands to [/start] for a referral link: the
    text after [?start=]. *)
Definition start_parameter (user_id : Z) : string := "ref_" +:+ str user_id.

Definition get_referrer_name (user_id : Z) (w : World) : string * World :=
  let '(user_data, w) := get_user_data user_id w in
  if negb (String.eqb (first_name user_data) "") then
    (first_name user_data, w)
  else if negb (String.eqb (username user_data) "") then
    ("@" +:+ username user_data, w)
  else ("User " +:+ str user_id, w).

(** ** Helper functions *)

(** The argument of [format_time_ago]: nothing ([None] or the empty
    string), a string [datetime.fromisoformat] refuses, or an instant. *)
Inductive timestamp_str :=
| no_timestamp
| bad_timestamp
| isoformat (t : Z).

(** [delta.days] and [delta.seconds] of a [timedelta] of whole seconds:
    the seconds are between 0 and 86399, the days may be negative. *)
Definition format_time_ago (timestamp : timestamp_str) (now : Z) : string :=
  match timestamp with
  | no_timestamp => "Belum pernah"
  | bad_timestamp => "Waktu tidak valid"
  | isoformat t =>
      let delta := now - t in
      let days := delta / 86400 in
      let seconds := delta mod 86400 in
      if 30 <? days then str (days / 30) +:+ " bulan yang lalu"
      else if 0 <? days then str days +:+ " hari yang lalu"
      else if 3600 <=? seconds then str (seconds / 3600) +:+ " jam yang lalu"
      else if 60 <=? seconds then str (seconds / 60) +:+ " menit yang lalu"
      else str seconds +:+ " detik yang lalu"
  end.

(** An entry of the temporary folder: a regular file with its
    modification time, or something that is not a file. *)
Inductive dir_entry :=
| regular_file (mtime : Z)
| not_a_file.

Definition too_old (max_age : Z) (now : Z) (e : dir_entry) : bool :=
  match e with
  | regular_file mtime => max_age * 3600 <? now - mtime
  | not_a_file => false
  end.

(** The folder after the loop over [os.listdir], with [deleted_count];
    [None] is a folder that does not exist. *)
Definition clean_temp_files (max_age : Z)
    (temp_folder : option (gmap string dir_entry)) (now : Z)
  : option (gmap string dir_entry) * nat :=
  match temp_folder with
  | None => (None, 0%nat)
  | Some dir =>
      let '(dir', deleted_count) :=
        foldl (fun acc ne =>
                 if too_old max_age now ne.2
                 then (delete ne.1 acc.1, S acc.2)
                 else acc)
              (dir, 0%nat) (map_to_list dir) in
      (Some dir', deleted_count)
  end.

(** ** Derived notions *)

(** The identities named in [USER_ROLES]. *)
Definition configured_ids : list Z :=
  [123456789; 234567890; 345678901; 456789012; 567890123].


(** The allowance [get_user_data] resets to, by the resolved role. *)
Definition daily_allowance (r : string) : Z :=
  if String.eqb r "vip" then CONFIG.vip_daily_limit else CONFIG.daily_limit.


(** Descending by the stored value. *)
Definition desc (a b : TopEntry) : Prop := te_value b ≤ te_value a.






(** ** A ledger to run the operations on *)

Module Ledger.

Definition t0 : Z := 1700000000.

Definition member (uid : Z) (code : string) : UserData :=
  set_referral (set_referral_code code (referral (get_user_schema t0)))
    (set_user_id uid (get_user_schema t0)).

Definition link_of (uid : Z) : Link :=
  {| lk_user_id := uid; lk_created_at := t0; uses := 0 |}.

(** Users 1001 and 3003 own the codes [codeA] and [codeC]; user 2002 has
    no code and no referrer.  The last backup was taken at [t0]. *)
Definition store0 : Store :=
  {| users := <[1001 := member 1001 "codeA"]>
                (<[2002 := member 2002 ""]>
                   (<[3003 := member 3003 "codeC"]> ∅));
     stats := stats (get_database_schema t0);
     referrals :=
       {| active_links := <["codeA" := link_of 1001]>
                            (<["codeC" := link_of 3003]> ∅);
          total_conversions := 0 |};
     meta := set_last_backup (Some t0) (meta (get_database_schema t0)) |}.

Definition world_of (db : Store) (now : Z) : World :=
  {| db_file := Some (Document (dump db)); temp_file := None;
     backups := ∅; corrupt := ∅; clock := now |}.

Definition world0 : World := world_of store0 t0.

End Ledger.

(** ** Further ledgers *)

(** A user whose day changed: a vip who spent the quota yesterday. *)
Definition vip_yesterday : UserData :=
  {| user_id := 4004; username := "chihiro"; first_name := "Chihiro";
     last_name := ""; join_date := Ledger.t0 - 86400; status := "active";
     role := "vip"; remaining_limit := 0; total_generations := 7;
     last_reset_date := date_of Ledger.t0 - 1; last_generation_time := None;
     referral := referral (get_user_schema Ledger.t0);
     preferences := preferences (get_user_schema Ledger.t0) |}.

Definition vip_world : World :=
  Ledger.world_of
    (set_users (<[4004 := vip_yesterday]> (users Ledger.store0)) Ledger.store0)
    Ledger.t0.

(** A document cut short, next to one quarantined earlier. *)
Definition torn_world : World :=
  {| db_file := Some (Torn (dump Ledger.store0)); temp_file := None;
     backups := ∅; corrupt := {[ 1600000000 := Junk "{" ]};
     clock := Ledger.t0 |}.







(** User 2002 owns the code that [create_referral_link] derives for it at
    [t0], and no other code is registered. *)
Definition issued_store : Store :=
  set_referrals
    {| active_links := {[ "n1wasKt6" := Ledger.link_of 2002 ]};
       total_conversions := 0 |} Ledger.store0.

Definition issued_world : World := Ledger.world_of issued_store Ledger.t0.

(** * Properties *)

(** ** The digest against known values *)

Lemma md5_empty :
  MD5.digest (encode "") =
  [0xd4; 0x1d; 0x8c; 0xd9; 0x8f; 0x00; 0xb2; 0x04;
   0xe9; 0x80; 0x09; 0x98; 0xec; 0xf8; 0x42; 0x7e].
Proof. vm_compute. reflexivity. Qed.

Lemma md5_abc :
  MD5.digest (encode "abc") =
  [0x90; 0x01; 0x50; 0x98; 0x3c; 0xd2; 0x4f; 0xb0;
   0xd6; 0x96; 0x3f; 0x7d; 0x28; 0xe1; 0x7f; 0x72].
Proof. vm_compute. reflexivity. Qed.

Lemma generate_referral_code_1001 :
  generate_referral_code 1001 1700000000 = "qaAjFQGG".
Proof. vm_compute. reflexivity. Qed.

(** ** The persistence protocol *)

(** A fault-free [save_database] succeeds, touches nothing but [meta] in
    the dictionary, and leaves the dumped dictionary as the document. *)
Lemma save_database_spec db w :
  ∃ m w',
    save_database db w = (true, set_meta m db, w')
    ∧ db_file w' = Some (Document (dump (set_meta m db)))
    ∧ temp_file w' = None
    ∧ clock w' = clock w
    ∧ corrupt w' = corrupt w
    ∧ updated_at m = clock w.
Proof.
  unfold save_database, save_database_at; simpl.
  destruct (backup_due _ _); simpl.
  - destruct (db_file w); simpl; eexists _, _; repeat split; reflexivity.
  - destruct (db_file w); simpl; eexists _, _; repeat split; reflexivity.
Qed.

Lemma load_database_parsed w d :
  document w = Some d → load_database w = (validate (clock w) d, w).
Proof.
  unfold document, load_database.
  destruct (db_file w) as [f|]; [|discriminate].
  intros ->. reflexivity.
Qed.

(** Whatever the document was, after [load_database] it parses and holds
    the dictionary that was returned. *)
Lemma load_database_ready w :
  ∃ db w' d,
    load_database w = (db, w')
    ∧ clock w' = clock w
    ∧ document w' = Some d
    ∧ validate (clock w') d = db.
Proof.
  unfold load_database, document.
  destruct (db_file w) as [f|] eqn:Hf.
  - destruct (parse f) as [d|] eqn:Hp.
    + exists (validate (clock w) d), w, d. rewrite Hf. auto.
    + match goal with
      | |- context [save_database ?db ?w1] =>
          destruct (save_database_spec db w1)
            as (m & w' & -> & Hdoc & _ & Hclk & _ & Hup)
      end.
      simpl in *. eexists _, w', _. rewrite Hdoc. simpl.
      repeat split; [done|].
      rewrite Hclk. destruct m; simpl in *; subst; reflexivity.
  - match goal with
    | |- context [save_database ?db ?w1] =>
        destruct (save_database_spec db w1)
          as (m & w' & -> & Hdoc & _ & Hclk & _ & Hup)
    end.
    simpl in *. eexists _, w', _. rewrite Hdoc. simpl.
    repeat split; [done|].
    rewrite Hclk. destruct m; simpl in *; subst; reflexivity.
Qed.

(** The document after a fault-free save of [db]. *)
Lemma save_database_document db w :
  ∃ m w',
    save_database db w = (true, set_meta m db, w')
    ∧ document w' = Some (dump (set_meta m db))
    ∧ clock w' = clock w.
Proof.
  destruct (save_database_spec db w) as (m & w' & H & Hdoc & _ & Hclk & _).
  exists m, w'. unfold document. rewrite Hdoc. auto.
Qed.

Lemma get_user_role_parsed uid w d :
  document w = Some d → (get_user_role uid w).2 = w.
Proof.
  intros Hd. unfold get_user_role.
  destruct (find _ _); [reflexivity|].
  rewrite (load_database_parsed _ _ Hd); simpl.
  destruct (_ !! _); reflexivity.
Qed.

(** [get_user_data] hands out the record that the document holds when it
    returns. *)
Lemma get_user_data_stored uid w :
  ∃ u w' d,
    get_user_data uid w = (u, w')
    ∧ clock w' = clock w
    ∧ document w' = Some d
    ∧ d_users d !! uid = Some u.
Proof.
  unfold get_user_data.
  destruct (load_database_ready w) as (db & w1 & d & -> & Hclk & Hd & Hv).
  destruct (users db !! uid) as [u|] eqn:Hu.
  - case_bool_decide as Hreset.
    + destruct (get_user_role uid w1) as [r w2] eqn:Hr.
      pose proof (get_user_role_parsed uid w1 d Hd) as Hw2.
      rewrite Hr in Hw2; simpl in Hw2; subst w2.
      match goal with
      | |- context [save_database ?db1 ?w1] =>
          destruct (save_database_document db1 w1) as (m & w' & -> & Hdoc & Hc)
      end.
      eexists _, w', _. repeat split; [congruence|exact Hdoc|].
      simpl. apply lookup_insert_eq.
    + exists u, w1, d. repeat split; [done..|].
      subst db. exact Hu.
  - match goal with
    | |- context [save_database ?db1 ?w1] =>
        destruct (save_database_document db1 w1) as (m & w' & -> & Hdoc & Hc)
    end.
    eexists _, w', _. repeat split; [congruence|exact Hdoc|].
    simpl. apply lookup_insert_eq.
Qed.

Lemma update_user_data_parsed uid upd w d u :
  document w = Some d → d_users d !! uid = Some u →
  ∃ m w',
    update_user_data uid upd w = (true, w')
    ∧ clock w' = clock w
    ∧ document w' =
        Some (dump (set_meta m
                      (set_users (<[uid := fold_left apply_update upd u]>
                                    (d_users d)) (validate (clock w) d)))).
Proof.
  intros Hd Hu. unfold update_user_data.
  rewrite (load_database_parsed _ _ Hd). simpl. rewrite Hu.
  match goal with
  | |- context [save_database ?db1 ?w1] =>
      destruct (save_database_document db1 w1) as (m & w' & -> & Hdoc & Hc)
  end.
  exists m, w'. auto.
Qed.

(** ** Quota manager *)

Lemma get_user_data_existing uid w d u :
  document w = Some d → d_users d !! uid = Some u →
  let today := date_of (clock w) in
  (last_reset_date u = today → get_user_data uid w = (u, w))
  ∧ (last_reset_date u ≠ today →
     let u' := set_last_reset_date today
                 (set_remaining_limit
                    (daily_allowance (get_user_role uid w).1) u) in
     ∃ w', get_user_data uid w = (u', w')
           ∧ clock w' = clock w
           ∧ stored_user uid w' = Some u').
Proof.
  intros Hd Hu today. unfold get_user_data.
  rewrite (load_database_parsed _ _ Hd). simpl. rewrite Hu. split.
  - intros Heq. rewrite bool_decide_eq_false_2; [reflexivity|].
    intros Hne. apply Hne. exact Heq.
  - intros Hne. rewrite bool_decide_eq_true_2 by exact Hne.
    pose proof (get_user_role_parsed uid w d Hd) as Hw.
    destruct (get_user_role uid w) as [r w2]. simpl in Hw. subst w2. simpl.
    match goal with
    | |- context [save_database ?db1 ?w1] =>
        destruct (save_database_document db1 w1) as (m & w' & -> & Hdoc & Hc)
    end.
    exists w'. unfold daily_allowance, stored_user. rewrite Hdoc. simpl.
    rewrite lookup_insert_eq. destruct (String.eqb r "vip"); auto.
Qed.

(** C6: on an existing record, [get_user_data] resets [remaining_limit]
    to the allowance of the resolved role (5 for a vip, above the standard
    2) and stamps [last_reset_date] exactly when the stored date is not
    today's, and saves the record; when the date is today's, it returns
    the record and leaves everything as it was.  Hence a second call on
    the same calendar date, at any time of that day, changes nothing. *)
Theorem get_user_data_daily_reset uid w d u
    (Hd : document w = Some d) (Hu : d_users d !! uid = Some u) :
  let today := date_of (clock w) in
  CONFIG.daily_limit < CONFIG.vip_daily_limit
  ∧ (last_reset_date u ≠ today →
     let u' := set_last_reset_date today
                 (set_remaining_limit
                    (daily_allowance (get_user_role uid w).1) u) in
     ∃ w', get_user_data uid w = (u', w') ∧ stored_user uid w' = Some u')
  ∧ (last_reset_date u = today → get_user_data uid w = (u, w))
  ∧ (∀ now', date_of now' = today →
     ∃ u1 w1, get_user_data uid w = (u1, w1)
              ∧ get_user_data uid (set_clock now' w1)
                = (u1, set_clock now' w1)).
Proof.
  intros today.
  destruct (get_user_data_existing uid w d u Hd Hu) as [Hsame Hreset].
  split; [reflexivity|]. split; [|split].
  - intros Hne. destruct (Hreset Hne) as (w' & H1 & _ & H2). eauto.
  - exact Hsame.
  - intros now' Hnow.
    destruct (decide (last_reset_date u = today)) as [Heq|Hne].
    + exists u, w. split; [exact (Hsame Heq)|].
      apply (get_user_data_existing uid (set_clock now' w) d u); try done.
      simpl. congruence.
    + destruct (Hreset Hne) as (w' & H1 & Hclk & H2).
      eexists _, w'. split; [exact H1|].
      unfold stored_user in H2.
      destruct (document w') as [d'|] eqn:Hd'; [|discriminate].
      apply (get_user_data_existing uid (set_clock now' w') d' _); done.
Qed.

Lemma get_user_data_daily_reset_witness :
  ∃ u' w',
    get_user_data 4004 vip_world = (u', w')
    ∧ remaining_limit u' = 5
    ∧ last_reset_date u' = date_of Ledger.t0
    ∧ stored_user 4004 w' = Some u'
    ∧ get_user_data 4004 (set_clock (Ledger.t0 + 3600) w')
      = (u', set_clock (Ledger.t0 + 3600) w').
Proof.
  destruct (get_user_data_daily_reset 4004 vip_world
              (dump (set_users (<[4004 := vip_yesterday]>
                                  (users Ledger.store0)) Ledger.store0))
              vip_yesterday eq_refl eq_refl)
    as (_ & Hreset & _ & Htwice).
  destruct Hreset as (w' & H1 & H2); [vm_compute; discriminate|].
  destruct (Htwice (Ledger.t0 + 3600)) as (u1 & w1 & H3 & H4);
    [vm_compute; reflexivity|].
  rewrite H1 in H3. injection H3 as <- <-.
  eexists _, w'. split; [exact H1|].
  split; [vm_compute; reflexivity|].
  split; [vm_compute; reflexivity|].
  split; [exact H2|exact H4].
Defined.

Lemma daily_allowance_bounds r : 0 ≤ daily_allowance r ≤ 5.
Proof. unfold daily_allowance. destruct (String.eqb r "vip"); done. Qed.

(** C7: for every identity and every integer amount, [modify_user_limit]
    takes the record [u] that [get_user_data] hands out, computes
    [max 0 (remaining_limit u + amount)], saves it in the document and
    returns it with success; the result is never negative.  On a stored
    record with quota 2, the amount -1000 yields [(true, 0)]. *)
Theorem modify_user_limit_clamps uid w :
  ∃ u w1,
    get_user_data uid w = (u, w1)
    ∧ (∀ amount,
        let new_limit := Z.max 0 (remaining_limit u + amount) in
        ∃ w', modify_user_limit uid amount w = ((true, new_limit), w')
              ∧ 0 ≤ new_limit
              ∧ remaining_limit <$> stored_user uid w' = Some new_limit)
    ∧ (∀ d u0, document w = Some d → d_users d !! uid = Some u0 →
               remaining_limit u0 = 2 →
               (modify_user_limit uid (-1000) w).1 = (true, 0)).
Proof.
  destruct (get_user_data_stored uid w) as (u & w1 & d1 & Hget & Hclk & Hd1 & Hu).
  exists u, w1. split; [exact Hget|].
  assert (Hmod : ∀ amount,
    ∃ w', modify_user_limit uid amount w
          = ((true, Z.max 0 (remaining_limit u + amount)), w')
          ∧ remaining_limit <$> stored_user uid w'
            = Some (Z.max 0 (remaining_limit u + amount))).
  { intros amount. unfold modify_user_limit. rewrite Hget.
    destruct (update_user_data_parsed uid
                [RemainingLimit (Z.max 0 (remaining_limit u + amount))]
                w1 d1 u Hd1 Hu) as (m & w' & -> & _ & Hdoc).
    exists w'. split; [reflexivity|].
    unfold stored_user. rewrite Hdoc. simpl.
    rewrite lookup_insert_eq. reflexivity. }
  split.
  - intros amount new_limit. destruct (Hmod amount) as (w' & H1 & H2).
    exists w'. split; [exact H1|]. split; [apply Z.le_max_l|exact H2].
  - intros d u0 Hd Hu0 Hq.
    destruct (Hmod (-1000)) as (w' & -> & _). simpl. f_equal.
    destruct (get_user_data_existing uid w d u0 Hd Hu0) as [Hsame Hreset].
    destruct (decide (last_reset_date u0 = date_of (clock w))) as [Heq|Hne].
    + rewrite (Hsame Heq) in Hget. injection Hget as <- <-. lia.
    + destruct (Hreset Hne) as (w2 & Hget' & _).
      rewrite Hget' in Hget. injection Hget as <- <-. simpl.
      pose proof (daily_allowance_bounds (get_user_role uid w).1). lia.
Qed.

(** ** Loading *)




(** ** Redemption: the rejections *)

Lemma get_user_data_referral uid w d u :
  document w = Some d → d_users d !! uid = Some u →
  referral (get_user_data uid w).1 = referral u.
Proof.
  intros Hd Hu.
  destruct (get_user_data_existing uid w d u Hd Hu) as [Hsame Hreset].
  destruct (decide (last_reset_date u = date_of (clock w))) as [Heq|Hne].
  - rewrite (Hsame Heq). reflexivity.
  - destruct (Hreset Hne) as (w' & -> & _). reflexivity.
Qed.

Lemma get_user_data_new uid w d :
  document w = Some d → d_users d !! uid = None →
  (get_user_data uid w).1 = set_user_id uid (get_user_schema (clock w)).
Proof.
  intros Hd Hu. unfold get_user_data.
  rewrite (load_database_parsed _ _ Hd). simpl. rewrite Hu.
  match goal with
  | |- context [save_database ?db1 ?w1] =>
      destruct (save_database_document db1 w1) as (m & w' & -> & _)
  end.
  reflexivity.
Qed.




(** ** Redemption: what the document holds afterwards *)

(** The dictionary saved at the end of [process_referral] is the one read
    at its first line, whose users nothing has touched: after a successful
    redemption the stored users are those stored before it. *)
Lemma process_referral_users referee code w d r w' :
  document w = Some d →
  process_referral referee code w = ((true, r), w') →
  stored_users w' = Some (d_users d).
Proof.
  intros Hd. unfold process_referral.
  rewrite (load_database_parsed _ _ Hd).
  destruct (_ !! code) as [l|]; [|discriminate].
  case_bool_decide; [discriminate|].
  destruct (get_user_data referee w) as [rd w1].
  case_bool_decide; [discriminate|].
  repeat match goal with
         | |- context [let '(_, _) := modify_user_limit ?a ?b ?c in _] =>
             destruct (modify_user_limit a b c) as [? ?]
         | |- context [let '(_, _) := update_user_data ?a ?b ?c in _] =>
             destruct (update_user_data a b c) as [? ?]
         | |- context [let '(_, _) := get_user_data ?a ?c in _] =>
             destruct (get_user_data a c) as [? ?]
         end.
  match goal with
  | |- context [if ?c then _ else _] => destruct c
  end.
  all: repeat match goal with
         | |- context [let '(_, _) := modify_user_limit ?a ?b ?c in _] =>
             destruct (modify_user_limit a b c) as [? ?]
         | |- context [let '(_, _) := update_user_data ?a ?b ?c in _] =>
             destruct (update_user_data a b c) as [? ?]
         end.
  all: match goal with
       | |- context [save_database ?db1 ?w1] =>
           destruct (save_database_document db1 w1)
             as (m & wf & -> & Hdoc & _)
       end.
  all: intros [= _ <-]; unfold stored_users; rewrite Hdoc; reflexivity.
Qed.




(** ** Issuing a code *)

(** When the user has no code, the dictionary saved at the end of
    [create_referral_link] is the one read at its first line: the stored
    users are those stored before, without the new code. *)
Lemma create_referral_link_users uid w d u :
  document w = Some d → d_users d !! uid = Some u →
  referral_code (referral u) = "" →
  stored_users (create_referral_link uid w).2 = Some (d_users d).
Proof.
  intros Hd Hu Hcode. unfold create_referral_link.
  rewrite (load_database_parsed _ _ Hd).
  pose proof (get_user_data_referral uid w d u Hd Hu) as Href.
  destruct (get_user_data uid w) as [ud w1]. simpl in Href.
  rewrite Href, Hcode. simpl.
  match goal with
  | |- context [let '(_, _) := update_user_data ?a ?b ?c in _] =>
      destruct (update_user_data a b c) as [? ?]
  end.
  match goal with
  | |- context [save_database ?db1 ?w1] =>
      destruct (save_database_document db1 w1) as (m & wf & -> & Hdoc & _)
  end.
  unfold stored_users. simpl. rewrite Hdoc. reflexivity.
Qed.

(** C4: user 2002 has no code.  The first call registers the code derived
    at [t0] with [uses = 0], yet the stored record of the user still has
    no code; a second call one minute later derives and registers another
    code, and the user's stored code is still empty.  Both calls return
    the same link, which does not contain the code. *)
Theorem referral_code_reissued :
  ∃ link w1 w2,
    create_referral_link 2002 Ledger.world0 = (link, w1)
    ∧ create_referral_link 2002 (set_clock (Ledger.t0 + 60) w1) = (link, w2)
    ∧ link = "https://t.me/ghibli_style_bot?start=ref_2002"
    ∧ generate_referral_code 2002 Ledger.t0 = "n1wasKt6"
    ∧ generate_referral_code 2002 (Ledger.t0 + 60) = "HuNuX9xv"
    ∧ stored_link "n1wasKt6" w1
      = Some {| lk_user_id := 2002; lk_created_at := Ledger.t0; uses := 0 |}
    ∧ referral_code <$> (referral <$> stored_user 2002 w1) = Some ""
    ∧ stored_link "n1wasKt6" w2
      = Some {| lk_user_id := 2002; lk_created_at := Ledger.t0; uses := 0 |}
    ∧ stored_link "HuNuX9xv" w2
      = Some {| lk_user_id := 2002; lk_created_at := Ledger.t0 + 60;
                uses := 0 |}
    ∧ referral_code <$> (referral <$> stored_user 2002 w2) = Some "".
Proof.
  eexists _, _, _. split; [vm_compute; reflexivity|].
  split; [vm_compute; reflexivity|].
  repeat split; vm_compute; reflexivity.
Qed.

(** ** Saving under faults *)

(** A fault while the temporary file is written, or while it is moved
    over the document: failure is reported, the temporary file is gone,
    and the document, the backups and the quarantine are what they
    were. *)
Lemma save_database_at_early_fault fl db w :
  fl = TempWriteFails ∨ fl = ReplaceFails →
  ∃ db' w',
    save_database_at fl db w = (false, db', w')
    ∧ db_file w' = db_file w
    ∧ temp_file w' = None
    ∧ backups w' = backups w
    ∧ corrupt w' = corrupt w.
Proof.
  intros [-> | ->]; unfold save_database_at; simpl;
    eexists _, _; repeat split; reflexivity.
Qed.

(** Without a fault and with no backup due, the document is replaced in
    one move by the temporary file. *)
Lemma save_database_at_no_backup db w :
  backup_due (last_backup (meta db)) (clock w) = false →
  let db' := set_meta (set_updated_at (clock w) (meta db)) db in
  save_database_at NoFault db w
  = (true, db',
     set_temp_file None (set_db_file (Some (Document (dump db'))) w)).
Proof.
  intros Hdue. unfold save_database_at. simpl.
  destruct (db_file w); simpl; rewrite Hdue; reflexivity.
Qed.

(** With a backup due, the document is written a second time, in place;
    a fault during that write leaves a torn document. *)
Lemma save_database_at_rewrite_fault db w :
  backup_due (last_backup (meta db)) (clock w) = true →
  ∃ db' w',
    save_database_at RewriteFails db w = (false, db', w')
    ∧ db_file w' = Some (Torn (dump db'))
    ∧ document w' = None.
Proof.
  intros Hdue. unfold save_database_at. simpl.
  destruct (db_file w); simpl; rewrite Hdue; simpl;
    eexists _, _; repeat split; reflexivity.
Qed.

(** C8: the ledger is saved 25 hours after the last backup and the
    file system fails during the write that follows the backup.  The
    document parsed before the call; after it, [save_database] has
    reported failure and the document is a torn file that does not parse.
    The next [load_database] quarantines it and starts from a store
    without users. *)
Theorem interrupted_save_tears_document :
  let w := Ledger.world_of Ledger.store0 (Ledger.t0 + 90000) in
  ∃ db' w',
    document w = Some (dump Ledger.store0)
    ∧ save_database_at RewriteFails Ledger.store0 w = (false, db', w')
    ∧ db_file w' = Some (Torn (dump db'))
    ∧ users db' = users Ledger.store0
    ∧ document w' = None
    ∧ temp_file w' = None
    ∧ users (load_database w').1 = ∅.
Proof.
  eexists _, _. split; [reflexivity|].
  split; [vm_compute; reflexivity|].
  repeat split; vm_compute; reflexivity.
Qed.

(** ** Top lists *)

Section TopList.

Lemma insert_desc_perm e l : insert_desc e l ≡ₚ e :: l.
Proof.
  induction l as [|y ys IH]; simpl; [done|].
  destruct (te_value e <? te_value y); [|done].
  rewrite IH. apply Permutation_swap.
Qed.

Lemma sorted_reverse_perm l : sorted_reverse l ≡ₚ l.
Proof.
  induction l as [|x l IH]; simpl; [done|].
  rewrite insert_desc_perm. by rewrite IH.
Qed.

Lemma insert_desc_sorted e l :
  StronglySorted desc l → StronglySorted desc (insert_desc e l).
Proof.
  induction 1 as [|y ys Hs IH Hall]; simpl.
  - repeat constructor.
  - destruct (te_value e <? te_value y) eqn:Hlt.
    + constructor; [exact IH|].
      rewrite insert_desc_perm. constructor; [|exact Hall].
      unfold desc. apply Z.ltb_lt in Hlt. lia.
    + apply Z.ltb_ge in Hlt.
      constructor; [by constructor|].
      constructor; [exact Hlt|].
      eapply Forall_impl; [exact Hall|]. unfold desc. intros; lia.
Qed.

Lemma sorted_reverse_sorted l : StronglySorted desc (sorted_reverse l).
Proof.
  induction l as [|x l IH]; simpl; [constructor|].
  by apply insert_desc_sorted.
Qed.

Lemma take_sorted n l :
  StronglySorted desc l → StronglySorted desc (take n l).
Proof.
  intros Hs. revert n.
  induction Hs as [|y ys Hs IH Hall]; intros [|n]; simpl; try constructor.
  - apply IH.
  - eapply Forall_forall. intros z Hz.
    rewrite Forall_forall in Hall. apply Hall.
    eapply elem_of_take in Hz as (i & Hi & _).
    by eapply list_elem_of_lookup_2.
Qed.

(** The search loop keeps the identities in place and finds the user
    exactly when an entry carries its identity. *)
Lemma overwrite_entry_ids uid u k l :
  te_user_id <$> (overwrite_entry uid u k l).2 = te_user_id <$> l
  ∧ (overwrite_entry uid u k l).1 = bool_decide (uid ∈ te_user_id <$> l).
Proof.
  induction l as [|e rest [IH1 IH2]].
  - split; [done|]. symmetry. apply bool_decide_eq_false_2, not_elem_of_nil.
  - simpl. destruct (decide (te_user_id e = uid)) as [He|He].
    + rewrite (bool_decide_eq_true_2 _ He). simpl. split; [done|].
      symmetry. apply bool_decide_eq_true_2. rewrite He. left.
    + rewrite (bool_decide_eq_false_2 _ He).
      destruct (overwrite_entry uid u k rest) as [found rest'].
      simpl in *. split; [f_equal; exact IH1|].
      rewrite IH2. apply bool_decide_ext. rewrite elem_of_cons.
      split; [by right|]. intros [Heq|Hin]; [congruence|exact Hin].
Qed.



Lemma update_entries_invariant uid u k n l :
  let l' := update_entries uid u k n l in
  StronglySorted desc l'
  ∧ (length l' ≤ n)%nat
  ∧ (NoDup (te_user_id <$> l) → NoDup (te_user_id <$> l')).
Proof.
  unfold update_entries.
  destruct (overwrite_entry_ids uid u k l) as [Hids Hfound].
  destruct (overwrite_entry uid u k l) as [found l1]. simpl in *.
  split; [apply take_sorted, sorted_reverse_sorted|].
  split; [rewrite length_take; lia|].
  intros Hnd.
  eapply sublist_NoDup; [|apply fmap_sublist, sublist_take].
  rewrite sorted_reverse_perm.
  destruct found.
  - by rewrite Hids.
  - rewrite fmap_app, Hids. simpl.
    apply NoDup_app. split; [done|]. split; [|apply NoDup_singleton].
    intros x Hx ->%list_elem_of_singleton.
    symmetry in Hfound. apply bool_decide_eq_false in Hfound. done.
Qed.

End TopList.

(** *** Fifteen users, ten places *)

Section TopTen.






End TopTen.






Lemma modify_user_limit_clamps_witness :
  (modify_user_limit 2002 (-1000) Ledger.world0).1 = (true, 0)
  ∧ (modify_user_limit 2002 3 Ledger.world0).1 = (true, 5).
Proof.
  destruct (modify_user_limit_clamps 2002 Ledger.world0)
    as (u & w1 & Hget & Hall & Hq2).
  split.
  - apply (Hq2 (dump Ledger.store0) (Ledger.member 2002 "")); reflexivity.
  - destruct (Hall 3) as (w' & -> & _). simpl.
    vm_compute in Hget. injection Hget as <- _. reflexivity.
Defined.


(** * Further properties *)

(** ** Saving, loading and backups *)

Lemma set_updated_at_same m : set_updated_at (updated_at m) m = m.
Proof. by destruct m. Qed.

(** What a fault-free [save_database] has written, [load_database] reads
    back: the dictionary that the save returned, with the users, the
    statistics and the referrals it was given, and the load changes
    nothing. *)
Theorem save_then_load db w :
  ∃ db' w',
    save_database db w = (true, db', w')
    ∧ users db' = users db
    ∧ stats db' = stats db
    ∧ referrals db' = referrals db
    ∧ load_database w' = (db', w').
Proof.
  destruct (save_database_spec db w) as (m & w' & Hs & Hdoc & _ & Hclk & _ & Hm).
  exists (set_meta m db), w'. repeat split; [exact Hs|].
  unfold load_database. rewrite Hdoc. simpl. unfold validate. simpl.
  rewrite Hclk, <- Hm, set_updated_at_same. reflexivity.
Qed.


(** The backup policy of [save_database].  Within the interval after the
    last backup, a save leaves the backups and [last_backup] alone.  With
    no backup yet, or one older than the interval, the save copies the
    document it has just written into the backups under the current
    timestamp, stamps [last_backup], and writes the stamped dictionary;
    the copy itself carries the stamp from before. *)
Theorem save_database_backup_policy db w :
  let written := set_meta (set_updated_at (clock w) (meta db)) db in
  (∀ last, last_backup (meta db) = Some last →
           clock w - last ≤ CONFIG.backup_interval * 3600 →
     ∃ w', save_database db w = (true, written, w')
           ∧ backups w' = backups w
           ∧ document w' = Some (dump written))
  ∧ (last_backup (meta db) = None
     ∨ (∃ last, last_backup (meta db) = Some last
                ∧ CONFIG.backup_interval * 3600 < clock w - last) →
     let stamped :=
       set_meta (set_last_backup (Some (clock w)) (meta written)) written in
     ∃ w', save_database db w = (true, stamped, w')
           ∧ backups w' = <[clock w := Document (dump written)]> (backups w)
           ∧ document w' = Some (dump stamped)).
Proof.
  intros written. split.
  - intros last Hlast Hle.
    assert (Hdue : backup_due (last_backup (meta db)) (clock w) = false).
    { rewrite Hlast. simpl. apply Z.ltb_ge. exact Hle. }
    rewrite (save_database_at_no_backup db w Hdue : save_database db w = _).
    eexists. split; [reflexivity|]. split; reflexivity.
  - intros Hold stamped.
    assert (Hdue : backup_due (last_backup (meta db)) (clock w) = true).
    { destruct Hold as [-> | (last & -> & Hlt)]; [reflexivity|].
      simpl. apply Z.ltb_lt. exact Hlt. }
    unfold save_database, save_database_at. simpl.
    destruct (db_file w); simpl; rewrite Hdue; simpl;
      eexists; repeat split; reflexivity.
Qed.

Lemma save_database_backup_policy_witness :
  (∃ w', save_database Ledger.store0 Ledger.world0
         = (true, Ledger.store0, w')
         ∧ backups w' = ∅)
  ∧ (∃ db' w',
       save_database Ledger.store0
         (Ledger.world_of Ledger.store0 (Ledger.t0 + 90000))
       = (true, db', w')
       ∧ last_backup (meta db') = Some (Ledger.t0 + 90000)
       ∧ is_Some (backups w' !! (Ledger.t0 + 90000))).
Proof.
  split.
  - destruct (save_database_backup_policy Ledger.store0 Ledger.world0)
      as [H _].
    destruct (H Ledger.t0 eq_refl) as (w' & H1 & H2 & _);
      [vm_compute; discriminate|].
    exists w'. split; [exact H1|exact H2].
  - destruct (save_database_backup_policy Ledger.store0
                (Ledger.world_of Ledger.store0 (Ledger.t0 + 90000)))
      as [_ H].
    destruct H as (w' & H1 & H2 & _).
    { right. exists Ledger.t0. split; [reflexivity|]. vm_compute. reflexivity. }
    eexists _, w'. split; [exact H1|]. split; [reflexivity|].
    rewrite H2. rewrite lookup_insert_eq. eauto.
Defined.

(** A document written without ["meta"] and ["referrals"] loads with
    those of the schema and with its users and statistics; the load does
    not write them back, and the next save of the loaded dictionary
    does. *)
Theorem load_database_old_document w us st
    (Hd : document w = Some {| d_users := us; d_stats := st;
                               d_referrals := None; d_meta := None |}) :
  ∃ db,
    load_database w = (db, w)
    ∧ users db = us
    ∧ stats db = st
    ∧ referrals db = referrals (get_database_schema (clock w))
    ∧ version (meta db) = CONFIG.bot_version
    ∧ ∃ db' w' d',
        save_database db w = (true, db', w')
        ∧ document w' = Some d'
        ∧ d_users d' = us
        ∧ d_referrals d' = Some (referrals db)
        ∧ is_Some (d_meta d').
Proof.
  rewrite (load_database_parsed _ _ Hd). eexists. split; [reflexivity|].
  repeat split.
  match goal with
  | |- context [save_database ?db1 ?w1] =>
      destruct (save_database_document db1 w1) as (m & w' & -> & Hdoc & _)
  end.
  eexists _, w', _. split; [reflexivity|]. split; [exact Hdoc|].
  simpl. eauto.
Qed.

Lemma load_database_old_document_witness :
  ∃ db, load_database
          (set_db_file
             (Some (Document {| d_users := users Ledger.store0;
                                d_stats := stats Ledger.store0;
                                d_referrals := None; d_meta := None |}))
             Ledger.world0)
        = (db, set_db_file
                 (Some (Document {| d_users := users Ledger.store0;
                                    d_stats := stats Ledger.store0;
                                    d_referrals := None; d_meta := None |}))
                 Ledger.world0)
        ∧ active_links (referrals db) = ∅.
Proof.
  destruct (load_database_old_document
              (set_db_file
                 (Some (Document {| d_users := users Ledger.store0;
                                    d_stats := stats Ledger.store0;
                                    d_referrals := None; d_meta := None |}))
                 Ledger.world0)
              (users Ledger.store0) (stats Ledger.store0) eq_refl)
    as (db & H1 & _ & _ & H2 & _).
  exists db. split; [exact H1|]. rewrite H2. reflexivity.
Defined.

(** ** Records and roles *)

(** The first access to an identity that has no record creates one: the
    schema with the identity, the standard allowance and today's date.
    It is stored next to the records that were there, [total_users] grows
    by one, and if it counted the records before, it still does. *)
Theorem get_user_data_creates uid w d
    (Hd : document w = Some d) (Hu : d_users d !! uid = None) :
  let new := set_user_id uid (get_user_schema (clock w)) in
  ∃ w' d',
    get_user_data uid w = (new, w')
    ∧ remaining_limit new = CONFIG.daily_limit
    ∧ last_reset_date new = date_of (clock w)
    ∧ document w' = Some d'
    ∧ d_users d' = <[uid := new]> (d_users d)
    ∧ stats_total_users (d_stats d') = stats_total_users (d_stats d) + 1
    ∧ (stats_total_users (d_stats d) = Z.of_nat (size (d_users d)) →
       stats_total_users (d_stats d') = Z.of_nat (size (d_users d')))
    ∧ d_referrals d' = Some (referrals (validate (clock w) d)).
Proof.
  intros new. unfold get_user_data.
  rewrite (load_database_parsed _ _ Hd). simpl. rewrite Hu.
  match goal with
  | |- context [save_database ?db1 ?w1] =>
      destruct (save_database_document db1 w1) as (m & w' & -> & Hdoc & _)
  end.
  eexists w', _. split; [reflexivity|]. do 2 (split; [reflexivity|]).
  split; [exact Hdoc|]. simpl. repeat split.
  intros ->. rewrite map_size_insert_None by exact Hu. lia.
Qed.

Lemma get_user_data_creates_witness :
  ∃ w', get_user_data 9009 Ledger.world0
        = (set_user_id 9009 (get_user_schema Ledger.t0), w')
        ∧ stored_user 9009 w'
          = Some (set_user_id 9009 (get_user_schema Ledger.t0))
        ∧ stored_user 1001 w' = stored_user 1001 Ledger.world0.
Proof.
  destruct (get_user_data_creates 9009 Ledger.world0 (dump Ledger.store0)
              eq_refl eq_refl) as (w' & d' & H1 & _ & _ & H2 & H3 & _).
  exists w'. split; [exact H1|]. unfold stored_user. rewrite H2, H3.
  split; [apply lookup_insert_eq|].
  rewrite lookup_insert_ne by done. reflexivity.
Defined.

(** An update of an identity that has no record is refused: the result is
    [False] and nothing is written. *)
Theorem update_user_data_unknown uid upd w d
    (Hd : document w = Some d) (Hu : d_users d !! uid = None) :
  update_user_data uid upd w = (false, w).
Proof.
  unfold update_user_data.
  rewrite (load_database_parsed _ _ Hd). simpl. by rewrite Hu.
Qed.

Lemma update_user_data_unknown_witness :
  update_user_data 9009 [RemainingLimit 50] Ledger.world0
  = (false, Ledger.world0).
Proof.
  apply (update_user_data_unknown 9009 _ Ledger.world0 (dump Ledger.store0));
    reflexivity.
Defined.

(** An update of an existing record writes the given fields, the later
    of two values for one field, into that record and nowhere else: the
    other records, the statistics and the referrals stay as they were. *)
Theorem update_user_data_frame uid upd w d u
    (Hd : document w = Some d) (Hu : d_users d !! uid = Some u) :
  ∃ w' d',
    update_user_data uid upd w = (true, w')
    ∧ document w' = Some d'
    ∧ d_users d' !! uid = Some (fold_left apply_update upd u)
    ∧ (∀ other, other ≠ uid → d_users d' !! other = d_users d !! other)
    ∧ d_stats d' = d_stats d
    ∧ d_referrals d' = Some (referrals (validate (clock w) d)).
Proof.
  destruct (update_user_data_parsed uid upd w d u Hd Hu)
    as (m & w' & H1 & _ & H2).
  eexists w', _. split; [exact H1|]. split; [exact H2|]. simpl.
  split; [apply lookup_insert_eq|]. split; [|done].
  intros other Hne. by rewrite lookup_insert_ne.
Qed.

Lemma update_user_data_frame_witness :
  ∃ w', update_user_data 2002 [Username "a"; RemainingLimit 7; Username "b"]
          Ledger.world0 = (true, w')
        ∧ username <$> stored_user 2002 w' = Some "b"
        ∧ remaining_limit <$> stored_user 2002 w' = Some 7
        ∧ stored_user 1001 w' = stored_user 1001 Ledger.world0.
Proof.
  destruct (update_user_data_frame 2002
              [Username "a"; RemainingLimit 7; Username "b"]
              Ledger.world0 (dump Ledger.store0) (Ledger.member 2002 "")
              eq_refl eq_refl) as (w' & d' & H1 & H2 & H3 & H4 & _).
  exists w'. split; [exact H1|]. unfold stored_user. rewrite H2, H3.
  split; [reflexivity|]. split; [reflexivity|].
  rewrite H4 by done. reflexivity.
Defined.

Lemma get_user_role_unconfigured uid w d :
  uid ∉ configured_ids → document w = Some d →
  get_user_role uid w
  = (match d_users d !! uid with Some u => role u | None => "user" end, w).
Proof.
  intros Hnot Hd. unfold get_user_role.
  unfold configured_ids in Hnot. rewrite !not_elem_of_cons in Hnot.
  destruct Hnot as (H1 & H2 & H3 & H4 & H5 & _).
  assert (Hfind : find (fun rd : string * (list Z * list string) =>
                          bool_decide (uid ∈ rd.2.1)) CONFIG.users = None).
  { simpl.
    rewrite (bool_decide_eq_false_2 (uid ∈ [123456789])).
    2: { rewrite !elem_of_cons, elem_of_nil. tauto. }
    rewrite (bool_decide_eq_false_2 (uid ∈ [234567890; 345678901])).
    2: { rewrite !elem_of_cons, elem_of_nil. tauto. }
    rewrite (bool_decide_eq_false_2 (uid ∈ [456789012; 567890123])).
    2: { rewrite !elem_of_cons, elem_of_nil. tauto. }
    reflexivity. }
  rewrite Hfind. rewrite (load_database_parsed _ _ Hd). simpl.
  by destruct (d_users d !! uid).
Qed.

(** The configured roles come first: the owner, the admins and the
    moderators of the configuration have their role whatever the document
    says, and the file is not even read.  Any other identity has the role
    of its stored record, or ["user"] without a record. *)
Theorem get_user_role_precedence uid w :
  (uid = 123456789 → get_user_role uid w = ("owner", w))
  ∧ (uid ∈ [234567890; 345678901] → get_user_role uid w = ("admin", w))
  ∧ (uid ∈ [456789012; 567890123] → get_user_role uid w = ("moderator", w))
  ∧ (uid ∉ configured_ids → ∀ d, document w = Some d →
     get_user_role uid w
     = (match d_users d !! uid with Some u => role u | None => "user" end,
        w)).
Proof.
  split; [|split; [|split]].
  - intros ->. reflexivity.
  - rewrite !elem_of_cons, elem_of_nil. intros [->|[->|[]]]; reflexivity.
  - rewrite !elem_of_cons, elem_of_nil. intros [->|[->|[]]]; reflexivity.
  - intros Hnot d Hd. by apply get_user_role_unconfigured.
Qed.

Lemma get_user_role_precedence_witness :
  get_user_role 234567890 torn_world = ("admin", torn_world)
  ∧ get_user_role 4004 vip_world = ("vip", vip_world)
  ∧ get_user_role 9009 vip_world = ("user", vip_world).
Proof.
  split; [|split].
  - destruct (get_user_role_precedence 234567890 torn_world) as (_ & H & _).
    apply H. rewrite !elem_of_cons. by left.
  - destruct (get_user_role_precedence 4004 vip_world) as (_ & _ & _ & H).
    assert (Hn : 4004 ∉ configured_ids)
      by (apply (bool_decide_unpack _); vm_compute; exact I).
    pose proof (H Hn _ eq_refl) as Hr. rewrite Hr. reflexivity.
  - destruct (get_user_role_precedence 9009 vip_world) as (_ & _ & _ & H).
    assert (Hn : 9009 ∉ configured_ids)
      by (apply (bool_decide_unpack _); vm_compute; exact I).
    pose proof (H Hn _ eq_refl) as Hr. rewrite Hr. reflexivity.
Defined.



(** ** Quota, composed *)

Lemma get_user_data_today uid w :
  last_reset_date (get_user_data uid w).1 = date_of (clock w).
Proof.
  unfold get_user_data.
  destruct (load_database_ready w) as (db & w1 & d & -> & Hclk & Hd & Hv).
  rewrite <- Hclk.
  destruct (users db !! uid) as [u|] eqn:Hu.
  - case_bool_decide as Hreset.
    + destruct (get_user_role uid w1) as [r w2] eqn:Hr.
      pose proof (get_user_role_parsed uid w1 d Hd) as Hw2.
      rewrite Hr in Hw2; simpl in Hw2; subst w2.
      match goal with
      | |- context [save_database ?db1 ?w1] =>
          destruct (save_database_document db1 w1) as (m & w' & -> & _)
      end.
      reflexivity.
    + simpl. destruct (decide (last_reset_date u = date_of (clock w1)));
        [done|contradiction].
  - match goal with
    | |- context [save_database ?db1 ?w1] =>
        destruct (save_database_document db1 w1) as (m & w' & -> & _)
    end.
    reflexivity.
Qed.

(** Two modifications in a row clamp one after the other: the second
    starts from the clamped result of the first, so what a reduction cut
    off at zero is not owed when a grant follows. *)
Theorem modify_user_limit_twice uid a b w :
  ∃ u w1 w2 w3,
    get_user_data uid w = (u, w1)
    ∧ modify_user_limit uid a w
      = ((true, Z.max 0 (remaining_limit u + a)), w2)
    ∧ modify_user_limit uid b w2
      = ((true, Z.max 0 (Z.max 0 (remaining_limit u + a) + b)), w3)
    ∧ (remaining_limit u + a ≤ 0 → 0 ≤ b →
       remaining_limit <$> stored_user uid w3 = Some b).
Proof.
  pose proof (get_user_data_today uid w) as Htoday.
  destruct (get_user_data_stored uid w)
    as (u & w1 & d1 & Hget & Hclk & Hd1 & Hu).
  rewrite Hget in Htoday. simpl in Htoday.
  set (q1 := Z.max 0 (remaining_limit u + a)).
  destruct (update_user_data_parsed uid [RemainingLimit q1] w1 d1 u Hd1 Hu)
    as (m & w2 & Hup & Hclk2 & Hd2).
  simpl in Hd2.
  assert (Hget2 : get_user_data uid w2 = (set_remaining_limit q1 u, w2)).
  { eapply get_user_data_existing; [exact Hd2| |].
    - simpl. apply lookup_insert_eq.
    - simpl. congruence. }
  destruct (update_user_data_parsed uid
              [RemainingLimit (Z.max 0 (q1 + b))] w2 _ _ Hd2
              (lookup_insert_eq _ _ _))
    as (m3 & w3 & Hup3 & _ & Hd3).
  exists u, w1, w2, w3. split; [exact Hget|]. split; [|split].
  - unfold modify_user_limit. rewrite Hget. fold q1. by rewrite Hup.
  - unfold modify_user_limit. rewrite Hget2. simpl. by rewrite Hup3.
  - intros Hle Hb. unfold stored_user. rewrite Hd3. simpl.
    rewrite lookup_insert_eq. simpl. f_equal. unfold q1. lia.
Qed.

(** ** Referral codes and start parameters *)

Lemma digit_one_char x :
  0 ≤ x < 64 → ∃ c, Base64.digit x = String c EmptyString.
Proof.
  intros Hx. unfold Base64.digit.
  assert (Hn : (Z.to_nat x < 64)%nat) by lia.
  remember (Z.to_nat x) as n eqn:E. clear E Hx.
  do 64 (destruct n as [|n]; [eexists; reflexivity|]). lia.
Qed.

Lemma land_63_bounds x : 0 ≤ Z.land x 63 < 64.
Proof.
  change 63 with (Z.ones 6). rewrite Z.land_ones by lia.
  apply Z.mod_pos_bound. lia.
Qed.

Lemma land_255_bounds x : 0 ≤ Z.land x 0xff < 256.
Proof.
  change 0xff with (Z.ones 8). rewrite Z.land_ones by lia.
  apply Z.mod_pos_bound. lia.
Qed.

Lemma shiftr_2_bounds b : 0 ≤ b < 256 → 0 ≤ Z.shiftr b 2 < 64.
Proof.
  intros Hb. rewrite Z.shiftr_div_pow2 by lia. change (2 ^ 2) with 4.
  split; [apply Z.div_pos; lia|].
  apply Z.div_lt_upper_bound; lia.
Qed.

Lemma b64_six_bytes b0 b1 b2 b3 b4 b5 rest :
  0 ≤ b0 < 256 → 0 ≤ b3 < 256 →
  String.length
    (String.substring 0 8
       (Base64.urlsafe_b64encode (b0 :: b1 :: b2 :: b3 :: b4 :: b5 :: rest)))
  = 8%nat.
Proof.
  intros H0 H3. cbn [Base64.urlsafe_b64encode].
  destruct (digit_one_char _ (shiftr_2_bounds b0 H0)) as [c1 ->].
  destruct (digit_one_char _ (land_63_bounds
              (Z.lor (Z.shiftl b0 4) (Z.shiftr b1 4)))) as [c2 ->].
  destruct (digit_one_char _ (land_63_bounds
              (Z.lor (Z.shiftl b1 2) (Z.shiftr b2 6)))) as [c3 ->].
  destruct (digit_one_char _ (land_63_bounds b2)) as [c4 ->].
  destruct (digit_one_char _ (shiftr_2_bounds b3 H3)) as [c5 ->].
  destruct (digit_one_char _ (land_63_bounds
              (Z.lor (Z.shiftl b3 4) (Z.shiftr b4 4)))) as [c6 ->].
  destruct (digit_one_char _ (land_63_bounds
              (Z.lor (Z.shiftl b4 2) (Z.shiftr b5 6)))) as [c7 ->].
  destruct (digit_one_char _ (land_63_bounds b5)) as [c8 ->].
  generalize (Base64.urlsafe_b64encode rest). intros s.
  cbv [String.append]. by destruct s.
Qed.

Lemma generate_referral_code_eight uid now :
  String.length (generate_referral_code uid now) = 8%nat.
Proof.
  unfold generate_referral_code, MD5.digest.
  match goal with
  | |- context [fold_left MD5.process_block ?bs ?st] =>
      destruct (fold_left MD5.process_block bs st) as [[[a b] c] d]
  end.
  cbn [MD5.le_bytes app].
  apply b64_six_bytes; apply land_255_bounds.
Qed.

(** Every referral code has eight characters, whatever the identity and
    the time. *)
Theorem generate_referral_code_length uid now :
  String.length (generate_referral_code uid now) = 8%nat.
Proof. apply generate_referral_code_eight. Qed.

Lemma split_cons sep s : ∃ piece pieces, split sep s = piece :: pieces.
Proof.
  induction s as [|c s (p & ps & IH)]; simpl; [by eexists _, _|].
  destruct (Ascii.eqb c sep); [by eexists _, _|].
  rewrite IH. by eexists _, _.
Qed.

(** The first piece of a split holds no separator, is a prefix of the
    string, and is the whole string exactly when the string holds no
    separator. *)
Lemma split_head sep s :
  ∃ piece pieces,
    split sep s = piece :: pieces
    ∧ (sep ∉ String.list_ascii_of_string piece)
    ∧ String.prefix piece s = true
    ∧ (piece = s ↔ (sep ∉ String.list_ascii_of_string s)).
Proof.
  induction s as [|c s (p & ps & IH & Hno & Hpre & Hiff)]; simpl.
  - eexists _, _. split; [reflexivity|]. split; [apply not_elem_of_nil|].
    split; [reflexivity|]. split; [intros _; apply not_elem_of_nil|done].
  - destruct (Ascii.eqb c sep) eqn:Hc.
    + apply Ascii.eqb_eq in Hc. subst c.
      eexists _, _. split; [reflexivity|]. split; [apply not_elem_of_nil|].
      split; [reflexivity|]. split; [discriminate|].
      intros Hn. exfalso. apply Hn. left.
    + apply Ascii.eqb_neq in Hc. rewrite IH.
      eexists _, _. split; [reflexivity|]. simpl.
      split; [rewrite not_elem_of_cons; split; [congruence|exact Hno]|].
      split.
      { destruct (ascii_dec c c); [exact Hpre|contradiction]. }
      rewrite not_elem_of_cons. split.
      * intros [= Heq]. split; [congruence|]. by apply Hiff.
      * intros [_ Hs]. f_equal. by apply Hiff.
Qed.

Lemma extract_after_prefix s :
  ∃ piece,
    extract_referral_code ("ref_" +:+ s) = Some piece
    ∧ ("_"%char ∉ String.list_ascii_of_string piece)
    ∧ String.prefix piece s = true
    ∧ (piece = s ↔ ("_"%char ∉ String.list_ascii_of_string s)).
Proof.
  destruct (split_head "_" s) as (p & ps & Hs & H1 & H2 & H3).
  exists p. split; [|done].
  unfold extract_referral_code. cbv [String.append]. simpl.
  rewrite Hs. simpl.
  replace (String.prefix "" s) with true by (by destruct s).
  reflexivity.
Qed.


Lemma uint_no_underscore d :
  "_"%char ∉ String.list_ascii_of_string (NilEmpty.string_of_uint d).
Proof.
  induction d; simpl;
    [apply not_elem_of_nil
    |rewrite not_elem_of_cons; split; [discriminate|assumption]..].
Qed.

Lemma str_no_underscore z : "_"%char ∉ String.list_ascii_of_string (str z).
Proof.
  unfold str. destruct (Z.to_int z) as [d|d]; simpl.
  - destruct d; try apply (uint_no_underscore (_ d)).
    simpl. rewrite not_elem_of_cons. split; [discriminate|].
    apply not_elem_of_nil.
  - rewrite not_elem_of_cons. split; [discriminate|].
    destruct d; try apply (uint_no_underscore (_ d)).
    simpl. rewrite not_elem_of_cons. split; [discriminate|].
    apply not_elem_of_nil.
Qed.

Lemma extract_start_parameter uid :
  extract_referral_code (start_parameter uid) = Some (str uid).
Proof.
  destruct (extract_after_prefix (str uid)) as (piece & Hex & _ & _ & Hiff).
  unfold start_parameter. rewrite Hex. f_equal.
  apply Hiff, str_no_underscore.
Qed.

(** The link that [create_referral_link] returns carries the identity of
    the user, not the referral code: followed through
    [extract_referral_code], its start parameter gives [str(user_id)]. *)
Theorem referral_link_carries_identity uid :
  referral_link uid
  = "https://t.me/ghibli_style_bot?start=" +:+ start_parameter uid
  ∧ extract_referral_code (start_parameter uid) = Some (str uid).
Proof. split; [reflexivity|apply extract_start_parameter]. Qed.

(** With every registered code eight characters long, as
    [generate_referral_code] makes them, and an identity whose decimal
    form has another length, the code taken from the user's own link is
    unknown: the redemption is rejected and nothing changes. *)
Theorem referral_link_not_redeemed referee owner w d code
    (Hd : document w = Some d)
    (Hkeys : ∀ c l, active_links (referrals (validate (clock w) d)) !! c
                    = Some l → String.length c = 8%nat)
    (Hlen : String.length (str owner) ≠ 8%nat)
    (Hcode : extract_referral_code (start_parameter owner) = Some code) :
  process_referral referee code w = ((false, None), w).
Proof.
  rewrite extract_start_parameter in Hcode. injection Hcode as <-.
  unfold process_referral. rewrite (load_database_parsed _ _ Hd).
  destruct (_ !! str owner) as [l|] eqn:Hl; [|reflexivity].
  exfalso. apply Hlen. by eapply Hkeys.
Qed.

Lemma referral_link_not_redeemed_witness :
  process_referral 3003 "2002" issued_world = ((false, None), issued_world).
Proof.
  apply (referral_link_not_redeemed 3003 2002 issued_world
           (dump issued_store) "2002" eq_refl).
  - intros c l H.
    change (({[ "n1wasKt6" := Ledger.link_of 2002 ]} : gmap string Link) !! c
            = Some l) in H.
    apply lookup_singleton_Some in H as [<- _]. reflexivity.
  - vm_compute. discriminate.
  - vm_compute. reflexivity.
Defined.

(** ** Redemption and issuance: links and statistics *)



(** For a user whose record has no code, [create_referral_link] registers
    one link: the code derived from the identity and the time, owned by
    the user, with no use yet.  The other links, the conversions and the
    statistics stay, and if all codes had eight characters they still
    have.  For a user whose record has a code, nothing is registered: the
    call is an access to the record and returns the link. *)
Theorem create_referral_link_registers uid w d u
    (Hd : document w = Some d) (Hu : d_users d !! uid = Some u) :
  let links := active_links (referrals (validate (clock w) d)) in
  (referral_code (referral u) = "" →
   ∃ w' d' rf,
     create_referral_link uid w = (referral_link uid, w')
     ∧ document w' = Some d'
     ∧ d_referrals d' = Some rf
     ∧ active_links rf
       = <[generate_referral_code uid (clock w) :=
             {| lk_user_id := uid; lk_created_at := clock w; uses := 0 |}]>
           links
     ∧ total_conversions rf
       = total_conversions (referrals (validate (clock w) d))
     ∧ d_stats d' = d_stats d
     ∧ ((∀ c l, links !! c = Some l → String.length c = 8%nat) →
        ∀ c l, active_links rf !! c = Some l → String.length c = 8%nat))
  ∧ (referral_code (referral u) ≠ "" →
     create_referral_link uid w
     = (referral_link uid, (get_user_data uid w).2)).
Proof.
  intros links.
  pose proof (get_user_data_referral uid w d u Hd Hu) as Href.
  destruct (get_user_data_stored uid w)
    as (ud & w1 & d1 & Hget & Hclk & Hd1 & Hud).
  rewrite Hget in Href. simpl in Href.
  unfold create_referral_link.
  rewrite (load_database_parsed _ _ Hd), Hget, Href.
  split.
  - intros Hcode. rewrite Hcode. simpl.
    match goal with
    | |- context [update_user_data uid ?upd w1] =>
        destruct (update_user_data_parsed uid upd w1 d1 ud Hd1 Hud)
          as (m & w2 & -> & Hclk2 & _)
    end.
    match goal with
    | |- context [save_database ?db1 ?w1] =>
        destruct (save_database_document db1 w1) as (m' & wf & -> & Hdoc & _)
    end.
    eexists wf, _, _. split; [reflexivity|]. split; [exact Hdoc|]. simpl.
    split; [reflexivity|]. simpl. rewrite Hclk2, Hclk.
    split; [reflexivity|]. split; [reflexivity|]. split; [reflexivity|].
    intros Hkeys c l. rewrite lookup_insert_Some.
    intros [[<- _]|[_ Hc]]; [apply generate_referral_code_eight|].
    by eapply Hkeys.
  - intros Hcode.
    rewrite (proj2 (String.eqb_neq _ "")) by exact Hcode.
    reflexivity.
Qed.

Lemma create_referral_link_registers_witness :
  ∃ w', create_referral_link 2002 Ledger.world0 = (referral_link 2002, w')
        ∧ stored_link "n1wasKt6" w'
          = Some {| lk_user_id := 2002; lk_created_at := Ledger.t0;
                    uses := 0 |}
        ∧ stored_link "codeA" w' = Some (Ledger.link_of 1001).
Proof.
  destruct (create_referral_link_registers 2002 Ledger.world0
              (dump Ledger.store0) (Ledger.member 2002 "") eq_refl eq_refl)
    as [H _].
  destruct (H eq_refl) as (w' & d' & rf & H1 & H2 & H3 & H4 & _).
  exists w'. split; [exact H1|]. unfold stored_link, stored_referrals.
  rewrite H2, H3, H4. split; vm_compute; reflexivity.
Defined.

(** The name of a referrer is never empty: the first name, else the
    username behind an [@], else ["User "] and the identity.  Asking for
    the name of an identity without a record creates the record and
    yields the last form. *)
Theorem get_referrer_name_never_empty uid w :
  (get_referrer_name uid w).1 ≠ ""
  ∧ (∀ d, document w = Some d → d_users d !! uid = None →
       (get_referrer_name uid w).1 = "User " +:+ str uid
       ∧ is_Some (stored_user uid (get_referrer_name uid w).2)).
Proof.
  unfold get_referrer_name. split.
  - destruct (get_user_data uid w) as [u w1].
    destruct (String.eqb (first_name u) "") eqn:Hf; simpl.
    + destruct (String.eqb (username u) "") eqn:Hu; simpl;
        cbv [String.append]; discriminate.
    + by apply String.eqb_neq in Hf.
  - intros d Hd Hnone.
    pose proof (get_user_data_new uid w d Hd Hnone) as Hnew.
    destruct (get_user_data_stored uid w) as (u & w1 & d1 & Hget & _ & Hd1 & Hu).
    rewrite Hget in Hnew |- *. simpl in Hnew. subst u. simpl.
    split; [reflexivity|]. unfold stored_user. rewrite Hd1, Hu. eauto.
Qed.

(** ** Statistics and the top lists *)

(** [update_user_stats] counts one generation and ranks the user with the
    total it is given; the records of the users, the count of users, the
    referrals and [top_referrers] are not touched.  [top_users] is
    descending with at most 10 entries afterwards. *)
Theorem update_user_stats_counts uid u w d (Hd : document w = Some d) :
  ∃ d',
    document (update_user_stats uid u w) = Some d'
    ∧ d_users d' = d_users d
    ∧ stats_total_generations (d_stats d')
      = stats_total_generations (d_stats d) + 1
    ∧ stats_total_users (d_stats d') = stats_total_users (d_stats d)
    ∧ top_referrers (d_stats d') = top_referrers (d_stats d)
    ∧ top_users (d_stats d')
      = update_entries uid u by_total_generations 10 (top_users (d_stats d))
    ∧ StronglySorted desc (top_users (d_stats d'))
    ∧ (length (top_users (d_stats d')) ≤ 10)%nat
    ∧ d_referrals d' = Some (referrals (validate (clock w) d)).
Proof.
  unfold update_user_stats. rewrite (load_database_parsed _ _ Hd).
  match goal with
  | |- context [save_database ?db1 ?w1] =>
      destruct (save_database_document db1 w1) as (m & w' & -> & Hdoc & _)
  end.
  eexists. split; [exact Hdoc|]. simpl.
  do 5 (split; [reflexivity|]).
  destruct (update_entries_invariant uid u by_total_generations 10
              (top_users (d_stats d))) as (H1 & H2 & _).
  done.
Qed.

Lemma update_user_stats_counts_witness :
  ∃ d', document (update_user_stats 2002
                    (set_total_generations 3 (Ledger.member 2002 ""))
                    Ledger.world0) = Some d'
        ∧ stats_total_generations (d_stats d') = 1
        ∧ te_value <$> top_users (d_stats d') = [3].
Proof.
  destruct (update_user_stats_counts 2002
              (set_total_generations 3 (Ledger.member 2002 ""))
              Ledger.world0 (dump Ledger.store0) eq_refl)
    as (d' & H1 & _ & H2 & _ & _ & H3 & _).
  exists d'. split; [exact H1|]. rewrite H2, H3. split; reflexivity.
Defined.



(** ** Helper functions *)

(** For an instant that is not in the future, [format_time_ago] names
    one of five units and the elapsed time in that unit, rounded down: at
    least one, except under a minute.  Months are counted as 30 days and
    only from the 31st day on: the 30th day still reads ["30 hari"]. *)
Theorem format_time_ago_past t now (Hpast : t ≤ now) :
  (∃ n unit name,
     format_time_ago (isoformat t) now = str n +:+ name
     ∧ (unit, name) ∈ [(2592000, " bulan yang lalu");
                       (86400, " hari yang lalu");
                       (3600, " jam yang lalu");
                       (60, " menit yang lalu");
                       (1, " detik yang lalu")]
     ∧ n * unit ≤ now - t < (n + 1) * unit
     ∧ (1 ≤ n ∨ now - t < 60))
  ∧ (30 * 86400 ≤ now - t < 31 * 86400 →
     format_time_ago (isoformat t) now = "30 hari yang lalu")
  ∧ (31 * 86400 ≤ now - t < 60 * 86400 →
     format_time_ago (isoformat t) now = "1 bulan yang lalu").
Proof.
  unfold format_time_ago.
  set (delta := now - t). assert (0 ≤ delta) by (unfold delta; lia).
  split; [|split].
  - destruct (30 <? delta / 86400) eqn:H1; [|destruct (0 <? delta / 86400) eqn:H2;
      [|destruct (3600 <=? delta mod 86400) eqn:H3;
        [|destruct (60 <=? delta mod 86400) eqn:H4]]].
    + apply Z.ltb_lt in H1.
      eexists _, 2592000, _. split; [reflexivity|].
      split; [rewrite !elem_of_cons; auto|].
      split; [|left]; Z.div_mod_to_equations; lia.
    + apply Z.ltb_ge in H1. apply Z.ltb_lt in H2.
      eexists _, 86400, _. split; [reflexivity|].
      split; [rewrite !elem_of_cons; auto|].
      split; [|left]; Z.div_mod_to_equations; lia.
    + apply Z.ltb_ge in H2. apply Z.leb_le in H3.
      eexists _, 3600, _. split; [reflexivity|].
      split; [rewrite !elem_of_cons; auto|].
      split; [|left]; Z.div_mod_to_equations; lia.
    + apply Z.ltb_ge in H2. apply Z.leb_gt in H3. apply Z.leb_le in H4.
      eexists _, 60, _. split; [reflexivity|].
      split; [rewrite !elem_of_cons; auto 6|].
      split; [|left]; Z.div_mod_to_equations; lia.
    + apply Z.ltb_ge in H2. apply Z.leb_gt in H3, H4.
      eexists _, 1, _. split; [reflexivity|].
      split; [rewrite !elem_of_cons; auto 7|].
      split; [|right]; Z.div_mod_to_equations; lia.
  - intros Hd. assert (Hdays : delta / 86400 = 30)
      by (Z.div_mod_to_equations; lia).
    rewrite Hdays. reflexivity.
  - intros Hd. assert (Hdays : 30 < delta / 86400 < 60)
      by (Z.div_mod_to_equations; lia).
    assert (Hm : delta / 86400 / 30 = 1) by (Z.div_mod_to_equations; lia).
    rewrite (proj2 (Z.ltb_lt _ _)) by lia. rewrite Hm. reflexivity.
Qed.

Lemma format_time_ago_past_witness :
  format_time_ago (isoformat (Ledger.t0 - 30 * 86400 - 5)) Ledger.t0
  = "30 hari yang lalu"
  ∧ format_time_ago (isoformat (Ledger.t0 - 45 * 86400)) Ledger.t0
    = "1 bulan yang lalu".
Proof.
  split.
  - destruct (format_time_ago_past (Ledger.t0 - 30 * 86400 - 5) Ledger.t0)
      as (_ & H & _); [unfold Ledger.t0; lia|].
    apply H. unfold Ledger.t0. lia.
  - destruct (format_time_ago_past (Ledger.t0 - 45 * 86400) Ledger.t0)
      as (_ & _ & H); [unfold Ledger.t0; lia|].
    apply H. unfold Ledger.t0. lia.
Defined.

(** An instant in the future is not refused: the days of the difference
    are negative and fail both tests, and the text is the one of the
    seconds part alone.  An instant one second ahead reads ["23 jam yang
    lalu"]. *)
Theorem format_time_ago_future t now (Hfuture : now < t) :
  format_time_ago (isoformat t) now
  = format_time_ago (isoformat (now - (now - t) mod 86400)) now
  ∧ (t = now + 1 → format_time_ago (isoformat t) now = "23 jam yang lalu").
Proof.
  assert (Hgen : format_time_ago (isoformat t) now
                 = format_time_ago (isoformat (now - (now - t) mod 86400)) now).
  { unfold format_time_ago.
    replace (now - (now - (now - t) mod 86400)) with ((now - t) mod 86400)
      by lia.
    set (delta := now - t). assert (delta < 0) by (unfold delta; lia).
    assert (Hs : 0 ≤ delta mod 86400 < 86400) by (apply Z.mod_pos_bound; lia).
    rewrite (Z.div_small (delta mod 86400) 86400) by exact Hs.
    rewrite (Z.mod_small (delta mod 86400) 86400) by exact Hs.
    rewrite (proj2 (Z.ltb_ge 30 (delta / 86400)))
      by (Z.div_mod_to_equations; lia).
    rewrite (proj2 (Z.ltb_ge 0 (delta / 86400)))
      by (Z.div_mod_to_equations; lia).
    reflexivity. }
  split; [exact Hgen|].
  intros ->. rewrite Hgen.
  replace (now - (now + 1)) with (-1) by lia.
  change ((-1) mod 86400) with 86399.
  unfold format_time_ago.
  replace (now - (now - 86399)) with 86399 by lia.
  reflexivity.
Qed.

Lemma format_time_ago_future_witness :
  format_time_ago (isoformat (Ledger.t0 + 1)) Ledger.t0 = "23 jam yang lalu".
Proof.
  destruct (format_time_ago_future (Ledger.t0 + 1) Ledger.t0) as [_ H];
    [unfold Ledger.t0; lia|].
  by apply H.
Defined.

Lemma clean_loop max_age now (l : list (string * dir_entry))
    (acc : gmap string dir_entry) (n : nat) name :
  NoDup l.*1 →
  (foldl (fun acc ne =>
            if too_old max_age now ne.2
            then (delete ne.1 acc.1, S acc.2) else acc) (acc, n) l).1 !! name
  = match (list_to_map l : gmap string dir_entry) !! name with
    | Some e => if too_old max_age now e then None else acc !! name
    | None => acc !! name
    end.
Proof.
  revert acc n. induction l as [|[k e] l IH]; intros acc n Hnd; [done|].
  apply NoDup_cons in Hnd as [Hk Hnd]. simpl.
  destruct (too_old max_age now e) eqn:Hold; simpl; rewrite IH by exact Hnd.
  - destruct (decide (name = k)) as [->|Hne].
    + rewrite lookup_insert_eq, Hold.
      rewrite (not_elem_of_list_to_map_1 _ _ Hk). apply lookup_delete_eq.
    + rewrite lookup_insert_ne by done.
      rewrite lookup_delete_ne by done. reflexivity.
  - destruct (decide (name = k)) as [->|Hne].
    + rewrite lookup_insert_eq, Hold.
      by rewrite (not_elem_of_list_to_map_1 _ _ Hk).
    + by rewrite lookup_insert_ne.
Qed.

(** [clean_temp_files] removes exactly the regular files whose age is
    above [max_age] hours: afterwards no such file is left, and every
    other entry, file or not, is where it was.  A folder that does not
    exist is left alone. *)
Theorem clean_temp_files_removes_old max_age dir now :
  clean_temp_files max_age None now = (None, 0%nat)
  ∧ ∃ dir' deleted_count,
      clean_temp_files max_age (Some dir) now = (Some dir', deleted_count)
      ∧ (∀ name mtime, dir' !! name = Some (regular_file mtime) →
           now - mtime ≤ max_age * 3600)
      ∧ (∀ name e, dir !! name = Some e →
           too_old max_age now e = false → dir' !! name = Some e)
      ∧ (∀ name, dir !! name = Some not_a_file →
           dir' !! name = Some not_a_file)
      ∧ (∀ name e, dir' !! name = Some e → dir !! name = Some e).
Proof.
  split; [reflexivity|]. unfold clean_temp_files.
  assert (Hlook : ∀ name,
    (foldl (fun acc ne =>
              if too_old max_age now ne.2
              then (delete ne.1 acc.1, S acc.2) else acc)
       (dir, 0%nat) (map_to_list dir)).1 !! name
    = match dir !! name with
      | Some e => if too_old max_age now e then None else Some e
      | None => None
      end).
  { intros name. rewrite clean_loop by apply NoDup_fst_map_to_list.
    rewrite list_to_map_to_list.
    destruct (dir !! name) as [e|] eqn:He; [|done].
    by destruct (too_old max_age now e). }
  destruct (foldl _ _ _) as [dir' cnt]. simpl in Hlook.
  exists dir', cnt. split; [reflexivity|]. repeat split.
  - intros name mtime Hin. rewrite Hlook in Hin.
    destruct (dir !! name) as [e|]; [|discriminate].
    destruct (too_old max_age now e) eqn:Hold; [discriminate|].
    injection Hin as ->. simpl in Hold. by apply Z.ltb_ge in Hold.
  - intros name e He Hold. by rewrite Hlook, He, Hold.
  - intros name He. by rewrite Hlook, He.
  - intros name e Hin. rewrite Hlook in Hin.
    destruct (dir !! name) as [e'|]; [|discriminate].
    destruct (too_old max_age now e'); [discriminate|done].
Qed.

(** ** Records, read back *)





Lemma get_user_role_configured uid w :
  uid ∈ configured_ids →
  (get_user_role uid w).1 ∈ ["owner"; "admin"; "moderator"].
Proof.
  unfold configured_ids. rewrite !elem_of_cons, elem_of_nil.
  intros [->|[->|[->|[->|[->|[]]]]]]; cbn; auto.
Qed.

(** The allowance of the daily reset follows the resolved role, not the
    stored one: an identity named in the configuration is reset to the
    standard allowance even when its record says ["vip"]; any other
    identity is reset to the vip allowance exactly when its record says
    ["vip"]. *)
Theorem daily_reset_allowance uid w d u
    (Hd : document w = Some d) (Hu : d_users d !! uid = Some u)
    (Hold : last_reset_date u ≠ date_of (clock w)) :
  (uid ∈ configured_ids →
   remaining_limit (get_user_data uid w).1 = CONFIG.daily_limit)
  ∧ (uid ∉ configured_ids → role u = "vip" →
     remaining_limit (get_user_data uid w).1 = CONFIG.vip_daily_limit)
  ∧ (uid ∉ configured_ids → role u ≠ "vip" →
     remaining_limit (get_user_data uid w).1 = CONFIG.daily_limit).
Proof.
  destruct (get_user_data_existing uid w d u Hd Hu) as [_ Hreset].
  destruct (Hreset Hold) as (w' & -> & _). simpl. unfold daily_allowance.
  split; [|split].
  - intros Hc. apply (get_user_role_configured uid w) in Hc.
    rewrite !elem_of_cons, elem_of_nil in Hc.
    destruct Hc as [->|[->|[->|[]]]]; reflexivity.
  - intros Hn Hr. rewrite (get_user_role_unconfigured uid w d Hn Hd), Hu.
    simpl. rewrite Hr. reflexivity.
  - intros Hn Hr. rewrite (get_user_role_unconfigured uid w d Hn Hd), Hu.
    simpl. by rewrite (proj2 (String.eqb_neq _ _)).
Qed.

Lemma daily_reset_allowance_witness :
  remaining_limit
    (get_user_data 234567890
       (Ledger.world_of
          (set_users (<[234567890 := vip_yesterday]> (users Ledger.store0))
             Ledger.store0) Ledger.t0)).1 = 2
  ∧ remaining_limit (get_user_data 4004 vip_world).1 = 5.
Proof.
  split.
  - destruct (daily_reset_allowance 234567890
                (Ledger.world_of
                   (set_users (<[234567890 := vip_yesterday]>
                                 (users Ledger.store0)) Ledger.store0)
                   Ledger.t0) _ vip_yesterday eq_refl
                (lookup_insert_eq _ _ _))
      as (H & _); [vm_compute; discriminate|].
    apply H. apply (bool_decide_unpack _). vm_compute. exact I.
  - destruct (daily_reset_allowance 4004 vip_world _ vip_yesterday
                eq_refl (lookup_insert_eq _ _ _))
      as (_ & H & _); [vm_compute; discriminate|].
    apply H; [|reflexivity].
    apply (bool_decide_unpack _). vm_compute. exact I.
Defined.

Lemma save_database_at_early_fault_witness :
  ∃ db' w',
    save_database_at ReplaceFails Ledger.store0 Ledger.world0
    = (false, db', w')
    ∧ document w' = document Ledger.world0
    ∧ temp_file w' = None.
Proof.
  destruct (save_database_at_early_fault ReplaceFails Ledger.store0
              Ledger.world0) as (db' & w' & H1 & H2 & H3 & _);
    [by right|].
  exists db', w'. split; [exact H1|]. unfold document. rewrite H2. done.
Defined.
